(** * Wishlist API backend: the metafield synchronizer and its operations

    A shallow embedding of [routes/wishlist] (the Express router of the
    wishlist backend) and proofs about its read-modify-write cycle.

    - Remote calls ([axios.post], [fetch]) go through an interface
      [Remote]; every call is recorded in a log, so that "no remote read
      or write occurs" is a statement about that log.
    - Handlers run in a small state-and-exception monad: JavaScript
      [throw]/[try]/[catch] become [throw] and [try_catch].
    - [Scripted] (canned replies) and [Shop] (an in-memory store) are two
      implementations of the upstream service.

    Identifiers are strings, as the router's own use of [startsWith] and
    [replace] on them requires, and a stored value that parses is the
    array of entries that add and remove write. *)

From Stdlib Require Import String Ascii List Bool Arith Lia DecimalString.
From stdpp Require Import gmap strings.
Import ListNotations.

(** ** JavaScript strings *)

Module JS.

(** [s.startsWith(search)] *)
Definition startsWith (s search : string) : bool := String.prefix search s.

(** [s.includes(search)] *)
Definition includes (s search : string) : bool :=
  match String.index 0 search s with
  | Some _ => true
  | None => false
  end.

(** [s.replace(pattern, replacement)] with a string pattern: only the
    first occurrence is replaced. *)
Definition replace (s pattern replacement : string) : string :=
  match String.index 0 pattern s with
  | Some i =>
      String.substring 0 i s +:+ replacement +:+
      String.substring (i + String.length pattern)
                       (String.length s - (i + String.length pattern)) s
  | None => s
  end.

(** Template-literal rendering of a number. *)
Definition string_of_nat (n : nat) : string :=
  NilZero.string_of_uint (Nat.to_uint n).

Definition string_of_pos (p : positive) : string :=
  NilZero.string_of_uint (Pos.to_uint p).

(** Truthiness of a value that is a string or [undefined]. *)
Definition truthy (v : option string) : bool :=
  match v with
  | Some (String _ _) => true
  | _ => false
  end.

(** [a || b] on such values. *)
Definition or_else (a b : option string) : option string :=
  if truthy a then a else b.

(** [String(v)], as applied by template literals and by the argument
    conversion of [startsWith] and [includes]. *)
Definition to_string (v : option string) : string :=
  match v with
  | Some s => s
  | None => "undefined"
  end.

End JS.

(** ** Data model *)

(** A wishlist entry, the [product] objects of the stored array. A
    property that is missing or [null] is [None]. *)
Module Product.
Record t : Type := mk {
  id : option string;
  handle : option string;
  title : option string;
  addedAt : string;
  addedFrom : string
}.
End Product.

Abbreviation Wishlist := (list Product.t).

(** A metafield value is a JSON text. It is kept in parsed form: the text
    of a wishlist array, or a text that [JSON.parse] rejects. So
    [JSON.parse (JSON.stringify w)] is [w] by construction, which is what
    the router relies on between a write and the next read. *)
Inductive JsonText : Type :=
| WishlistText (products : Wishlist)
| Malformed (raw : string).

Definition JSON_stringify (wishlistProducts : Wishlist) : JsonText :=
  WishlistText wishlistProducts.

(** [None] is the [SyntaxError] of [JSON.parse]. *)
Definition JSON_parse (text : JsonText) : option Wishlist :=
  match text with
  | WishlistText products => Some products
  | Malformed _ => None
  end.

(** [process.env] *)
Record Env : Type := {
  NODE_ENV : option string;
  DEVELOPMENT_URL : option string;
  SHOPIFY_STORE_URL : option string;
  SHOPIFY_SHOP_DOMAIN : option string;
  SHOPIFY_ACCESS_TOKEN : option string
}.

(** ** The upstream API *)

(** The [{namespace, key, value, type}] object both channels send. *)
Record MetafieldInput : Type := {
  namespace : string;
  key : string;
  value : JsonText;
  type : string
}.

(** The three GraphQL documents, with their variables. *)
Inductive GqlRequest : Type :=
| getCustomer (id : string)
| getProducts (ids : list string)
| metafieldsSet (ownerId : string) (metafield : MetafieldInput).

(** A product node of the [nodes] query; [id] is [None] when the node is
    not a product (the fragment selects nothing). *)
Module Node.
Record t : Type := mk {
  id : option string;
  handle : option string;
  title : option string
}.
End Node.

(** An edge node of [customer.metafields]. *)
Module Edge.
Record t : Type := mk {
  namespace : string;
  key : string;
  value : JsonText
}.
End Edge.

(** [response.data.data], by the field it carries. *)
Inductive GqlData : Type :=
| data_null
| data_customer (customer : option (list Edge.t))
| data_nodes (nodes : list (option Node.t))
| data_metafieldsSet (userErrors : list string).

(** What [axios.post] does: it rejects (network failure, non-2xx status),
    or resolves to a response whose [data.errors], when present, is given
    here as its JSON text. *)
Inductive AxiosResult : Type :=
| AxiosReject (message : string)
| AxiosResponse (errors : option string) (data : GqlData).

(** The REST requests of the fallback channel. *)
Inductive RestRequest : Type :=
| GET_metafields (cleanCustomerId : string)
| PUT_metafield (cleanCustomerId : string) (metafieldId : positive) (body : MetafieldInput)
| POST_metafield (cleanCustomerId : string) (body : MetafieldInput).

Definition rest_method (r : RestRequest) : string :=
  match r with
  | GET_metafields _ => "GET"
  | PUT_metafield _ _ _ => "PUT"
  | POST_metafield _ _ => "POST"
  end.

Definition rest_url (env : Env) (r : RestRequest) : string :=
  let base := "https://" +:+ JS.to_string (SHOPIFY_SHOP_DOMAIN env)
              +:+ "/admin/api/2023-10/customers/" in
  match r with
  | GET_metafields c => base +:+ c +:+ "/metafields.json"
  | PUT_metafield c i _ => base +:+ c +:+ "/metafields/" +:+ JS.string_of_pos i +:+ ".json"
  | POST_metafield c _ => base +:+ c +:+ "/metafields.json"
  end.

Module Metafield.
Record t : Type := mk {
  id : positive;
  namespace : string;
  key : string
}.
End Metafield.

(** The body of a REST response as [response.json()] sees it. *)
Inductive RestBody : Type :=
| not_json
| json (metafields : option (list Metafield.t)).

Inductive FetchResult : Type :=
| FetchReject (message : string)
| FetchResponse (status : nat) (text : string) (body : RestBody).

(** [response.ok] *)
Definition ok (status : nat) : bool := (200 <=? status) && (status <=? 299).

(** A remote call, as recorded in the log. *)
Inductive Call : Type :=
| axios_call (q : GqlRequest)
| fetch_call (r : RestRequest).

Definition is_write (c : Call) : bool :=
  match c with
  | axios_call (metafieldsSet _ _) => true
  | fetch_call (PUT_metafield _ _ _) => true
  | fetch_call (POST_metafield _ _) => true
  | _ => false
  end.

(** The upstream service and the clock, as the router uses them. *)
Class Remote (W : Type) : Type := {
  axios_post : GqlRequest -> W -> AxiosResult * W;
  fetch : RestRequest -> W -> FetchResult * W;
  toISOString : W -> string
}.

(** ** Handlers' monad: state, log and exceptions *)

Inductive Outcome (A : Type) : Type :=
| Return (a : A)
| Throw (message : string).
Arguments Return {A} a.
Arguments Throw {A} message.

Record State (W : Type) : Type := mkState {
  world : W;
  log : list Call
}.
Arguments mkState {W} world log.
Arguments world {W} s.
Arguments log {W} s.

Definition M (W A : Type) : Type := State W -> Outcome A * State W.

Definition ret {W A} (a : A) : M W A := fun st => (Return a, st).

Definition throw {W A} (message : string) : M W A := fun st => (Throw message, st).

Definition bind {W A B} (m : M W A) (k : A -> M W B) : M W B :=
  fun st =>
    match m st with
    | (Return a, st') => k a st'
    | (Throw e, st') => (Throw e, st')
    end.

(** [try { m } catch (error) { handler(error.message) }] *)
Definition try_catch {W A} (m : M W A) (handler : string -> M W A) : M W A :=
  fun st =>
    match m st with
    | (Return a, st') => (Return a, st')
    | (Throw e, st') => handler e st'
    end.

Notation "'let*' x := m 'in' k" := (bind m (fun x => k))
  (at level 10, x name, m at level 100, k at level 200).
Notation "m ;; k" := (bind m (fun _ => k))
  (at level 100, k at level 200, right associativity).

(** ** HTTP requests and responses of the router *)

Inductive Route : Type :=
| POST_add
| GET_root
| DELETE_remove
| unmatched (method originalUrl : string).

(** The parts of [req] the router reads. A header, body field or query
    parameter that is absent is [None]; [host] is [req.headers.host],
    [body_customerId] is [req.body.customerId], and so on. *)
Module Req.
Record t : Type := mk {
  route : Route;
  Origin : option string;
  Referer : option string;
  host : option string;
  body_customerId : option string;
  body_productId : option string;
  query_customerId : option string
}.
End Req.

(** The [data] member of a success response. *)
Inductive Data : Type :=
| added (customerId : string) (product : Product.t) (wishlistCount : nat)
| listed (customerId : string) (wishlist : Wishlist) (count : nat)
| removed (customerId productId : string) (wishlistCount : nat).

Inductive Json : Type :=
| failure (error message : string)
| success (message : option string) (data : Data).

Module Res.
Record t : Type := mk {
  status : nat;
  body : Json
}.
End Res.

(** ** The router *)

Definition customerPrefix : string := "gid://shopify/Customer/".
Definition productPrefix : string := "gid://shopify/Product/".

(** [customerId.startsWith('gid://') ? customerId
     : `gid://shopify/Customer/${customerId}`], as written in both
    [getCustomerMetafield] and [updateCustomerMetafield]. *)
Definition customerGid (customerId : string) : string :=
  if JS.startsWith customerId "gid://" then customerId
  else customerPrefix +:+ customerId.

(** [product.id === productId] *)
Definition has_id (productId : string) (product : Product.t) : bool :=
  match Product.id product with
  | Some i => String.eqb i productId
  | None => false
  end.

(** What [getProductDetails] returns for one product. *)
Module Details.
Record t : Type := mk {
  id : string;
  handle : option string;
  title : option string
}.
End Details.

(** [{ ...productDetails[0], addedAt, addedFrom }]; spreading [undefined]
    adds no property. *)
Definition newProduct (details : option Details.t) (addedAt addedFrom : string)
  : Product.t :=
  match details with
  | Some d => Product.mk (Some (Details.id d)) (Details.handle d) (Details.title d)
                         addedAt addedFrom
  | None => Product.mk None None None addedAt addedFrom
  end.

(** The object both write channels carry. *)
Definition wishlistMetafield (wishlistProducts : Wishlist) : MetafieldInput :=
  {| namespace := "custom";
     key := "wishlist_products";
     value := JSON_stringify wishlistProducts;
     type := "json" |}.

(** [validateStoreRequest]'s decision. *)
Definition isValidOrigin (env : Env) (req : Req.t) : bool :=
  let origin := JS.or_else (Req.Origin req) (Req.Referer req) in
  match NODE_ENV env with
  | Some "development" =>
      JS.truthy (Req.host req) &&
      JS.includes (JS.to_string (Req.host req)) (JS.to_string (DEVELOPMENT_URL env))
  | _ =>
      JS.truthy origin &&
      JS.startsWith (JS.to_string origin) (JS.to_string (SHOPIFY_STORE_URL env))
  end.

(** [validateStoreRequest]: either the response it sends, or the value of
    [req.storeValidation.isValidated] with which it calls [next()]. *)
Definition validateStoreRequest (env : Env) (req : Req.t) : Res.t + bool :=
  if negb (isValidOrigin env req) then
    inl (Res.mk 403 (failure "Forbidden" "Request not authorized from this store"))
  else inr true.

(** The callback of [existingMetafields.metafields?.find] in the REST
    fallback. *)
Definition is_wishlist_metafield (mf : Metafield.t) : bool :=
  String.eqb (Metafield.namespace mf) "custom"
  && String.eqb (Metafield.key mf) "wishlist_products".

Section Router.

Context {W : Type} {remote : Remote W}.

(** [await axios.post(...)]: the call is logged; a rejection throws. *)
Definition await_axios (q : GqlRequest) : M W (option string * GqlData) :=
  fun st =>
    let (r, w) := axios_post q (world st) in
    let st' := mkState w (log st ++ [axios_call q]) in
    match r with
    | AxiosReject message => (Throw message, st')
    | AxiosResponse errors data => (Return (errors, data), st')
    end.

(** [await fetch(url, ...)] *)
Definition await_fetch (r : RestRequest) : M W (nat * string * RestBody) :=
  fun st =>
    let (res, w) := fetch r (world st) in
    let st' := mkState w (log st ++ [fetch_call r]) in
    match res with
    | FetchReject message => (Throw message, st')
    | FetchResponse status text body => (Return (status, text, body), st')
    end.

(** [await response.json()] *)
Definition response_json (body : RestBody) : M W (option (list Metafield.t)) :=
  match body with
  | not_json => throw "Unexpected token in JSON"
  | json metafields => ret metafields
  end.

(** [new Date().toISOString()] *)
Definition now : M W string := fun st => (Return (toISOString (world st)), st).

Definition makeShopifyGraphQLRequest (query : GqlRequest) : M W GqlData :=
  try_catch
    (let* response := await_axios query in
     match response with
     | (Some errors, _) => throw ("GraphQL Error: " +:+ errors)
     | (None, data) => ret data
     end)
    (fun error => throw error).

(** [setWishlistMetafield]: the mutation alone; a user error is thrown
    with the message of the first one. *)
Definition setWishlistMetafield (customerId : string)
    (wishlistProducts : Wishlist) : M W unit :=
  try_catch
    (let* result :=
       makeShopifyGraphQLRequest
         (metafieldsSet (customerGid customerId) (wishlistMetafield wishlistProducts)) in
     match result with
     | data_metafieldsSet (first :: _) => throw ("GraphQL Error: " +:+ first)
     | data_metafieldsSet [] => ret tt
     | data_null => throw "Cannot read properties of null (reading 'metafieldsSet')"
     | _ => throw "Cannot read properties of undefined (reading 'userErrors')"
     end)
    (fun error => throw error).

Definition updateCustomerMetafieldREST (customerId : string)
    (wishlistProducts : Wishlist) : M W unit :=
  try_catch
    (let cleanCustomerId := JS.replace customerId "gid://shopify/Customer/" EmptyString in
     let* getResponse := await_fetch (GET_metafields cleanCustomerId) in
     let* metafieldId :=
       (let '(status, _, body) := getResponse in
        if ok status then
          let* existingMetafields := response_json body in
          let existingMetafield :=
            match existingMetafields with
            | Some metafields => find is_wishlist_metafield metafields
            | None => None
            end in
          ret (option_map Metafield.id existingMetafield)
        else ret None) in
     let request :=
       match metafieldId with
       | Some i => PUT_metafield cleanCustomerId i (wishlistMetafield wishlistProducts)
       | None => POST_metafield cleanCustomerId (wishlistMetafield wishlistProducts)
       end in
     let* response := await_fetch request in
     let '(status, errorText, body) := response in
     if negb (ok status) then
       throw ("REST API Error: " +:+ JS.string_of_nat status +:+ " - " +:+ errorText)
     else
       response_json body ;;
       ret tt)
    (fun error => throw error).

(** The "basic structure" returned for a product when the lookup throws. *)
Definition degraded (id : string) : Details.t :=
  Details.mk id None (Some ("Product " +:+ id)).

(** The callback of [result.nodes.map]; a [null] node or a node without
    [id] raises a [TypeError]. *)
Definition details_of_node (node : option Node.t) : M W Details.t :=
  match node with
  | None => throw "Cannot read properties of null (reading 'id')"
  | Some product =>
      match Node.id product with
      | None => throw "Cannot read properties of undefined (reading 'replace')"
      | Some i =>
          ret (Details.mk (JS.replace i "gid://shopify/Product/" EmptyString)
                          (Node.handle product) (Node.title product))
      end
  end.

Fixpoint map_nodes (nodes : list (option Node.t)) : M W (list Details.t) :=
  match nodes with
  | [] => ret []
  | node :: rest =>
      let* d := details_of_node node in
      let* ds := map_nodes rest in
      ret (d :: ds)
  end.

Definition getProductDetails (productIds : list string) : M W (list Details.t) :=
  try_catch
    (match productIds with
     | [] => ret []
     | _ =>
         let ids := map (fun id => "gid://shopify/Product/" +:+ id) productIds in
         let* result := makeShopifyGraphQLRequest (getProducts ids) in
         match result with
         | data_nodes nodes => map_nodes nodes
         | data_null => throw "Cannot read properties of null (reading 'nodes')"
         | _ => throw "Cannot read properties of undefined (reading 'map')"
         end
     end)
    (fun error => ret (map degraded productIds)).

Definition updateCustomerMetafield (customerId : string)
    (wishlistProducts : Wishlist) : M W unit :=
  try_catch
    (let* result :=
       makeShopifyGraphQLRequest
         (metafieldsSet (customerGid customerId) (wishlistMetafield wishlistProducts)) in
     match result with
     | data_metafieldsSet (_ :: _) =>
         updateCustomerMetafieldREST customerId wishlistProducts
     | data_metafieldsSet [] => ret tt
     | data_null => throw "Cannot read properties of null (reading 'metafieldsSet')"
     | _ => throw "Cannot read properties of undefined (reading 'userErrors')"
     end)
    (fun error => updateCustomerMetafieldREST customerId wishlistProducts).

(** The callback of [result.customer.metafields.edges.find]. *)
Definition is_wishlist_edge (edge : Edge.t) : bool :=
  String.eqb (Edge.key edge) "wishlist_products"
  && String.eqb (Edge.namespace edge) "custom".

Definition getCustomerMetafield (customerId : string) : M W Wishlist :=
  try_catch
    (let* result := makeShopifyGraphQLRequest (getCustomer (customerGid customerId)) in
     let* customer :=
       match result with
       | data_null => throw "Cannot read properties of null (reading 'customer')"
       | data_customer (Some edges) => ret edges
       | _ => throw ("Customer not found: " +:+ customerId)
       end in
     match find is_wishlist_edge customer with
     | Some wishlistMetafield =>
         match JSON_parse (Edge.value wishlistMetafield) with
         | Some productDetails => ret productDetails
         | None => ret []
         end
     | None => ret []
     end)
    (fun error =>
       if JS.includes error "Customer not found" then ret [] else throw error).

(** [router.post('/add', ...)]; [isValidated] is
    [req.storeValidation?.isValidated]. *)
Definition post_add (req : Req.t) (isValidated : bool) : M W Res.t :=
  try_catch
    (let customerId := Req.body_customerId req in
     let productId := Req.body_productId req in
     if negb isValidated then
       ret (Res.mk 403 (failure "Unauthorized" "Request not validated for store access"))
     else if negb (JS.truthy customerId) || negb (JS.truthy productId) then
       ret (Res.mk 400 (failure "Missing required fields"
                                "customerId and productId are required"))
     else
       let customerId := JS.to_string customerId in
       let productId := JS.to_string productId in
       let* currentWishlist := getCustomerMetafield customerId in
       match find (has_id productId) currentWishlist with
       | Some existingProduct =>
           ret (Res.mk 409 (failure "Product already in wishlist"
                                    "This product is already in the customer's wishlist"))
       | None =>
           let* productDetails := getProductDetails [productId] in
           let* addedAt := now in
           let newProduct := newProduct (head productDetails) addedAt "shopify-store" in
           let currentWishlist := currentWishlist ++ [newProduct] in
           updateCustomerMetafield customerId currentWishlist ;;
           ret (Res.mk 201 (success (Some "Product added to wishlist successfully")
                                    (added customerId newProduct (length currentWishlist))))
       end)
    (fun error => ret (Res.mk 500 (failure "Failed to add product to wishlist" error))).

(** [router.get('/', ...)] *)
Definition get_root (req : Req.t) (isValidated : bool) : M W Res.t :=
  try_catch
    (let customerId := Req.query_customerId req in
     if negb isValidated then
       ret (Res.mk 403 (failure "Unauthorized" "Request not validated for store access"))
     else if negb (JS.truthy customerId) then
       ret (Res.mk 400 (failure "Missing required parameter" "customerId is required"))
     else
       let customerId := JS.to_string customerId in
       let* wishlist := getCustomerMetafield customerId in
       ret (Res.mk 200 (success None (listed customerId wishlist (length wishlist)))))
    (fun error => ret (Res.mk 500 (failure "Failed to fetch wishlist" error))).

(** [router.delete('/remove', ...)] *)
Definition delete_remove (req : Req.t) : M W Res.t :=
  try_catch
    (let customerId := Req.body_customerId req in
     let productId := Req.body_productId req in
     if negb (JS.truthy customerId) || negb (JS.truthy productId) then
       ret (Res.mk 400 (failure "Missing required fields"
                                "customerId and productId are required"))
     else
       let customerId := JS.to_string customerId in
       let productId := JS.to_string productId in
       let* currentWishlist := getCustomerMetafield customerId in
       let initialLength := length currentWishlist in
       let currentWishlist :=
         List.filter (fun product => negb (has_id productId product)) currentWishlist in
       if length currentWishlist =? initialLength then
         ret (Res.mk 404 (failure "Product not found" "Product not found in wishlist"))
       else
         updateCustomerMetafield customerId currentWishlist ;;
         ret (Res.mk 200 (success (Some "Product removed from wishlist successfully")
                                  (removed customerId productId (length currentWishlist)))))
    (fun error => ret (Res.mk 500 (failure "Failed to remove product from wishlist" error))).

(** The router: [router.use(validateStoreRequest)] first, then the
    route's handler; a request no route matches reaches the
    application's 404 handler. *)
Definition wishlistRoutes (env : Env) (req : Req.t) : M W Res.t :=
  match validateStoreRequest env req with
  | inl res => ret res
  | inr isValidated =>
      match Req.route req with
      | POST_add => post_add req isValidated
      | GET_root => get_root req isValidated
      | DELETE_remove => delete_remove req
      | unmatched method originalUrl =>
          ret (Res.mk 404 (failure "Route not found"
                                   ("Cannot " +:+ method +:+ " " +:+ originalUrl)))
      end
  end.

End Router.

(** A server start: nothing logged yet. *)
Definition boot {W : Type} (w : W) : State W := mkState w [].

(** ** Two upstream services *)

(** *** Canned replies, consumed in order *)

Inductive Reply : Type :=
| axios_reply (r : AxiosResult)
| fetch_reply (r : FetchResult).

Module Scripted.

Record t : Type := mk {
  clock : string;
  replies : list Reply
}.

Definition axios_post (q : GqlRequest) (w : t) : AxiosResult * t :=
  match replies w with
  | axios_reply r :: rest => (r, mk (clock w) rest)
  | _ :: rest => (AxiosReject "Network Error", mk (clock w) rest)
  | [] => (AxiosReject "Network Error", w)
  end.

Definition fetch (r : RestRequest) (w : t) : FetchResult * t :=
  match replies w with
  | fetch_reply res :: rest => (res, mk (clock w) rest)
  | _ :: rest => (FetchReject "fetch failed", mk (clock w) rest)
  | [] => (FetchReject "fetch failed", w)
  end.

End Scripted.

#[export] Instance scripted : Remote Scripted.t :=
  {| axios_post := Scripted.axios_post;
     fetch := Scripted.fetch;
     toISOString := Scripted.clock |}.

(** *** An in-memory store

    A store that keeps, per customer, the [custom.wishlist_products]
    metafield, and a product catalogue. [primary] says how the
    [metafieldsSet] mutation answers and [products_api] whether product
    queries are answered, so that both write channels and both lookup
    outcomes are exercised. *)

Module Shop.

Inductive Primary : Type :=
| accepts
| user_errors
| unavailable.

Record t : Type := mk {
  customers : gmap string (option (positive * JsonText));
  catalog : gmap string (string * string);
  next_id : positive;
  primary : Primary;
  products_api : bool;
  clock : string
}.

(** [Some rest] when [s] is [pre] followed by [rest]. *)
Fixpoint strip (pre s : string) : option string :=
  match pre, s with
  | EmptyString, _ => Some s
  | String a pre', String b s' => if Ascii.eqb a b then strip pre' s' else None
  | String _ _, EmptyString => None
  end.

(** The wishlist a reader finds for customer [c]. *)
Definition stored (w : t) (c : string) : Wishlist :=
  match customers w !! c with
  | Some (Some (_, WishlistText products)) => products
  | _ => []
  end.

Definition set_value (c : string) (v : JsonText) (w : t) : t :=
  match customers w !! c with
  | Some (Some (i, _)) =>
      mk (<[c := Some (i, v)]> (customers w)) (catalog w) (next_id w)
         (primary w) (products_api w) (clock w)
  | Some None =>
      mk (<[c := Some (next_id w, v)]> (customers w)) (catalog w) (Pos.succ (next_id w))
         (primary w) (products_api w) (clock w)
  | None => w
  end.

Definition is_wishlist (m : MetafieldInput) : bool :=
  String.eqb (namespace m) "custom" && String.eqb (key m) "wishlist_products".

Definition edges_of (m : option (positive * JsonText)) : list Edge.t :=
  match m with
  | Some (_, v) => [Edge.mk "custom" "wishlist_products" v]
  | None => []
  end.

Definition metafields_of (m : option (positive * JsonText)) : list Metafield.t :=
  match m with
  | Some (i, _) => [Metafield.mk i "custom" "wishlist_products"]
  | None => []
  end.

Definition customer_of (w : t) (gid : string) : option (option (positive * JsonText)) :=
  match strip customerPrefix gid with
  | Some c => customers w !! c
  | None => None
  end.

Definition node_of (w : t) (gid : string) : option Node.t :=
  match strip productPrefix gid with
  | Some p =>
      match catalog w !! p with
      | Some (handle, title) => Some (Node.mk (Some gid) (Some handle) (Some title))
      | None => None
      end
  | None => None
  end.

Definition axios_post (q : GqlRequest) (w : t) : AxiosResult * t :=
  match q with
  | getCustomer gid =>
      (AxiosResponse None (data_customer (option_map edges_of (customer_of w gid))), w)
  | getProducts ids =>
      if products_api w then (AxiosResponse None (data_nodes (map (node_of w) ids)), w)
      else (AxiosReject "Request failed with status code 503", w)
  | metafieldsSet ownerId m =>
      match primary w with
      | unavailable => (AxiosReject "Request failed with status code 503", w)
      | user_errors =>
          (AxiosResponse None (data_metafieldsSet ["Access denied for metafieldsSet field."]), w)
      | accepts =>
          match strip customerPrefix ownerId with
          | Some c =>
              match customers w !! c with
              | Some _ =>
                  (AxiosResponse None (data_metafieldsSet []),
                   if is_wishlist m then set_value c (value m) w else w)
              | None =>
                  (AxiosResponse None (data_metafieldsSet ["Owner does not exist."]), w)
              end
          | None => (AxiosResponse None (data_metafieldsSet ["Invalid id"]), w)
          end
      end
  end.

Definition fetch (r : RestRequest) (w : t) : FetchResult * t :=
  match r with
  | GET_metafields c =>
      match customers w !! c with
      | Some m => (FetchResponse 200 "{...}" (json (Some (metafields_of m))), w)
      | None => (FetchResponse 404 "Not Found" (json None), w)
      end
  | PUT_metafield c i body =>
      match customers w !! c with
      | Some (Some (j, _)) =>
          if Pos.eqb i j then
            (FetchResponse 200 "{...}" (json None),
             if is_wishlist body then set_value c (value body) w else w)
          else (FetchResponse 404 "Not Found" (json None), w)
      | _ => (FetchResponse 404 "Not Found" (json None), w)
      end
  | POST_metafield c body =>
      match customers w !! c with
      | Some None =>
          (FetchResponse 201 "{...}" (json None),
           if is_wishlist body then set_value c (value body) w else w)
      | Some (Some _) => (FetchResponse 422 "must be unique within this namespace" (json None), w)
      | None => (FetchResponse 404 "Not Found" (json None), w)
      end
  end.

End Shop.

#[export] Instance shop : Remote Shop.t :=
  {| axios_post := Shop.axios_post;
     fetch := Shop.fetch;
     toISOString := Shop.clock |}.

(** [customerId] is a bare or qualified form of the customer that the
    store knows as [c]: both channels of the router address [c]. *)
Definition refers_to (customerId c : string) : Prop :=
  customerGid customerId = customerPrefix +:+ c /\
  JS.replace customerId customerPrefix EmptyString = c.

#[export] Instance refers_to_dec (customerId c : string) : Decision (refers_to customerId c).
Proof. unfold refers_to. apply _. Defined.

(** ** Vocabulary of the statements *)

(** The state once query [q] has been sent: the upstream has answered and
    the call is in the log. *)
Definition after_axios {W} `{Remote W} (q : GqlRequest) (st : State W) : State W :=
  mkState (snd (axios_post q (world st))) (log st ++ [axios_call q]).

(** The state once REST request [r] has been sent. *)
Definition after_fetch {W} `{Remote W} (r : RestRequest) (st : State W) : State W :=
  mkState (snd (fetch r (world st))) (log st ++ [fetch_call r]).

(** A call of the secondary channel. *)
Definition is_fetch (c : Call) : bool :=
  match c with
  | fetch_call _ => true
  | axios_call _ => false
  end.

(** The message [makeShopifyGraphQLRequest] throws on a failed query. *)
Definition failure_message (r : AxiosResult) : string :=
  match r with
  | AxiosReject message => message
  | AxiosResponse (Some errors) _ => "GraphQL Error: " +:+ errors
  | AxiosResponse None _ => EmptyString
  end.

(** What [updateCustomerMetafieldREST] makes of the response to its PUT
    or POST. *)
Definition write_outcome (r : FetchResult) : Outcome unit :=
  match r with
  | FetchReject message => Throw message
  | FetchResponse status text body =>
      if ok status then
        match body with
        | json _ => Return tt
        | not_json => Throw "Unexpected token in JSON"
        end
      else Throw ("REST API Error: " +:+ JS.string_of_nat status +:+ " - " +:+ text)
  end.

(** A product node as the store's API returns it for a product: the
    qualified id, the handle and the title; and the details the lookup
    makes of it. *)
Definition node_of_row (row : string * option string * option string) : option Node.t :=
  let '(id, handle, title) := row in
  Some (Node.mk (Some (productPrefix +:+ id)) handle title).

Definition details_of_row (row : string * option string * option string) : Details.t :=
  let '(id, handle, title) := row in Details.mk id handle title.

(** No two entries of a wishlist share a product id. *)
Definition unique_ids (w : Wishlist) : Prop := List.NoDup (map Product.id w).

(** The store with its primary channel in another mode. *)
Definition with_primary (mode : Shop.Primary) (shop : Shop.t) : Shop.t :=
  Shop.mk (Shop.customers shop) (Shop.catalog shop) (Shop.next_id shop)
          mode (Shop.products_api shop) (Shop.clock shop).

(** The GraphQL helper throws on these answers: the call rejected, or the
    response carries [errors]. *)
Definition query_failed (r : AxiosResult) : bool :=
  match r with
  | AxiosReject _ => true
  | AxiosResponse (Some _) _ => true
  | AxiosResponse None _ => false
  end.

(** A node on which the mapping callback raises: [null], or without [id]. *)
Definition unusable (node : option Node.t) : bool :=
  match node with
  | None => true
  | Some product =>
      match Node.id product with
      | None => true
      | Some _ => false
      end
  end.

(** The answers to the product query on which [result.nodes.map(...)]
    raises: no [nodes] list to map over, or a list with such a node. *)
Definition mapping_raises (data : GqlData) : bool :=
  match data with
  | data_nodes nodes => existsb unusable nodes
  | _ => true
  end.

(** The customer answers from which a read recovers an empty wishlist:
    no such customer, no wishlist metafield yet, or a metafield whose value
    does not parse. *)
Inductive empty_read : GqlData -> Prop :=
| customer_not_found : empty_read (data_customer None)
| no_metafield (edges : list Edge.t) :
    find is_wishlist_edge edges = None ->
    empty_read (data_customer (Some edges))
| parse_failure (edges : list Edge.t) (e : Edge.t) :
    find is_wishlist_edge edges = Some e ->
    JSON_parse (Edge.value e) = None ->
    empty_read (data_customer (Some edges)).

(** The HTTP status a run of the router answers with. *)
Definition status_of {W} (result : Outcome Res.t * State W) : option nat :=
  match fst result with
  | Return res => Some (Res.status res)
  | Throw _ => None
  end.

(** What the store's lookup yields for product [p]. *)
Definition shop_details (shop : Shop.t) (p : string) : Details.t :=
  if Shop.products_api shop then
    match Shop.catalog shop !! p with
    | Some (handle, title) => Details.mk p (Some handle) (Some title)
    | None => degraded p
    end
  else degraded p.

(** ** Sample data *)

Module Demo.

Definition env : Env :=
  {| NODE_ENV := Some "production";
     DEVELOPMENT_URL := None;
     SHOPIFY_STORE_URL := Some "https://wishes.example";
     SHOPIFY_SHOP_DOMAIN := Some "wishes.example";
     SHOPIFY_ACCESS_TOKEN := Some "shpat_0" |}.

Definition add (customerId productId : string) : Req.t :=
  Req.mk POST_add (Some "https://wishes.example") None (Some "api.example")
         (Some customerId) (Some productId) None.

Definition get (customerId : string) : Req.t :=
  Req.mk GET_root (Some "https://wishes.example") None (Some "api.example")
         None None (Some customerId).

Definition remove (customerId productId : string) : Req.t :=
  Req.mk DELETE_remove (Some "https://wishes.example") None (Some "api.example")
         (Some customerId) (Some productId) None.

(** A request from elsewhere, with no body at all. *)
Definition stranger : Req.t :=
  Req.mk POST_add (Some "https://elsewhere.example") None (Some "api.example")
         None None None.

Definition tee : Product.t :=
  Product.mk (Some "9") (Some "tee") (Some "Tee")
             "2024-01-01T00:00:00.000Z" "shopify-store".

(** Customer 123 has no wishlist yet, customer 456 has the tee, customer
    789 has a value that does not parse. *)
Definition store : Shop.t :=
  Shop.mk {[ "123" := None;
             "456" := Some (5%positive, WishlistText [tee]);
             "789" := Some (6%positive, Malformed "[{") ]}
          {[ "9" := ("tee", "Tee") ]}
          7 Shop.accepts true "2024-02-02T00:00:00.000Z".

(** Upstream replies for one write: the mutation reports a user error,
    the first REST attempt fails at its POST, the second goes through. *)
Definition flaky : Scripted.t :=
  Scripted.mk "2024-02-02T00:00:00.000Z"
    [ axios_reply (AxiosResponse None (data_metafieldsSet ["Access denied"]));
      fetch_reply (FetchResponse 200 "{...}" (json (Some [])));
      fetch_reply (FetchResponse 500 "Internal Server Error" not_json);
      fetch_reply (FetchResponse 200 "{...}" (json (Some [])));
      fetch_reply (FetchResponse 201 "{...}" (json None)) ].

(** Upstream replies for one add: the product query is rejected. *)
Definition lookup_down : Scripted.t :=
  Scripted.mk "2024-02-02T00:00:00.000Z"
    [ axios_reply (AxiosResponse None (data_customer (Some [])));
      axios_reply (AxiosReject "Request failed with status code 502");
      axios_reply (AxiosResponse None (data_metafieldsSet [])) ].

(** The same, with a [null] node for the product. *)
Definition null_node : Scripted.t :=
  Scripted.mk "2024-02-02T00:00:00.000Z"
    [ axios_reply (AxiosResponse None (data_customer (Some [])));
      axios_reply (AxiosResponse None (data_nodes [None]));
      axios_reply (AxiosResponse None (data_metafieldsSet [])) ].

(** A read of customer 123's wishlist, with the given headers. *)
Definition from (origin referer host : option string) : Req.t :=
  Req.mk GET_root origin referer host None None (Some "123").

(** A production setup without store URL. *)
Definition unconfigured : Env :=
  {| NODE_ENV := Some "production";
     DEVELOPMENT_URL := None;
     SHOPIFY_STORE_URL := None;
     SHOPIFY_SHOP_DOMAIN := None;
     SHOPIFY_ACCESS_TOKEN := None |}.

(** A development setup. *)
Definition dev : Env :=
  {| NODE_ENV := Some "development";
     DEVELOPMENT_URL := Some "localhost";
     SHOPIFY_STORE_URL := Some "https://wishes.example";
     SHOPIFY_SHOP_DOMAIN := Some "wishes.example";
     SHOPIFY_ACCESS_TOKEN := Some "shpat_0" |}.

(** An upstream that rejects the first query with [message]. *)
Definition failing (message : string) : Scripted.t :=
  Scripted.mk "2024-02-02T00:00:00.000Z" [ axios_reply (AxiosReject message) ].

(** An upstream that is not reachable at all. *)
Definition offline : Scripted.t := Scripted.mk "2024-02-02T00:00:00.000Z" [].

(** A product query answered with the tee and a [null] node. *)
Definition tee_and_null : Scripted.t :=
  Scripted.mk "2024-02-02T00:00:00.000Z"
    [ axios_reply (AxiosResponse None
        (data_nodes [ Some (Node.mk (Some "gid://shopify/Product/9") (Some "tee") (Some "Tee"));
                      None ])) ].

(** A product query answered with two products. *)
Definition two_products : Scripted.t :=
  Scripted.mk "2024-02-02T00:00:00.000Z"
    [ axios_reply (AxiosResponse None
        (data_nodes (map node_of_row [ ("9", Some "tee", Some "Tee");
                                       ("10", Some "mug", Some "Mug") ]))) ].

(** REST replies: the customer has the wishlist metafield, as record 42,
    and the write is accepted. *)
Definition rest_existing : Scripted.t :=
  Scripted.mk "2024-02-02T00:00:00.000Z"
    [ fetch_reply (FetchResponse 200 "{...}"
        (json (Some [ Metafield.mk 3 "custom" "notes";
                      Metafield.mk 42 "custom" "wishlist_products" ])));
      fetch_reply (FetchResponse 200 "{...}" (json None)) ].

(** REST replies: no such customer, and the write is refused. *)
Definition rest_refused : Scripted.t :=
  Scripted.mk "2024-02-02T00:00:00.000Z"
    [ fetch_reply (FetchResponse 404 "Not Found" (json None));
      fetch_reply (FetchResponse 422 "owner is invalid" (json None)) ].

(** Both channels down. *)
Definition down : Scripted.t :=
  Scripted.mk "2024-02-02T00:00:00.000Z"
    [ axios_reply (AxiosResponse None (data_customer (Some [])));
      axios_reply (AxiosResponse None (data_nodes [None]));
      axios_reply (AxiosReject "Request failed with status code 503");
      fetch_reply (FetchResponse 404 "Not Found" (json None));
      fetch_reply (FetchResponse 422 "owner is invalid" (json None)) ].

End Demo.

(** * Proofs *)

(** ** Facts about JavaScript strings *)

Lemma prefix_append (pre s : string) : String.prefix pre (pre +:+ s) = true.
Proof.
  induction pre as [|a pre IH]; simpl.
  - now destruct s.
  - destruct (Ascii.ascii_dec a a) as [_|ne]; [exact IH | now elim ne].
Qed.

Lemma index_append (pre s : string) : String.index 0 pre (pre +:+ s) = Some 0.
Proof.
  destruct pre as [|a pre].
  - simpl. now destruct s.
  - change (String a pre +:+ s) with (String a (pre +:+ s)).
    cbn [String.index].
    change (String a (pre +:+ s)) with (String a pre +:+ s).
    now rewrite prefix_append.
Qed.

Lemma substring_all (s : string) : String.substring 0 (String.length s) s = s.
Proof. induction s as [|a s IH]; simpl; [reflexivity | now rewrite IH]. Qed.

Lemma substring_skip (pre s : string) (n : nat) :
  String.substring (String.length pre) n (pre +:+ s) = String.substring 0 n s.
Proof. induction pre as [|a pre IH]; simpl; [reflexivity | exact IH]. Qed.

Lemma length_append (s t : string) :
  String.length (s +:+ t) = String.length s + String.length t.
Proof. induction s as [|a s IH]; simpl; [reflexivity | now rewrite IH]. Qed.

Lemma replace_prefix (pre s : string) : JS.replace (pre +:+ s) pre EmptyString = s.
Proof.
  unfold JS.replace. rewrite index_append.
  replace (String.substring 0 0 (pre +:+ s)) with EmptyString
    by now destruct (pre +:+ s).
  cbn [String.append Nat.add].
  rewrite length_append.
  replace (String.length pre + String.length s - String.length pre)
    with (String.length s) by lia.
  now rewrite substring_skip, substring_all.
Qed.

Lemma replace_absent (s pattern : string) :
  JS.includes s pattern = false -> JS.replace s pattern EmptyString = s.
Proof.
  unfold JS.includes, JS.replace.
  now destruct (String.index 0 pattern s).
Qed.

Lemma includes_prefix (pre s : string) : JS.includes (pre +:+ s) pre = true.
Proof. unfold JS.includes. now rewrite index_append. Qed.

Lemma strip_append (pre s : string) : Shop.strip pre (pre +:+ s) = Some s.
Proof.
  induction pre as [|a pre IH]; simpl; [reflexivity |].
  now rewrite Ascii.eqb_refl.
Qed.

Lemma truthy_nonempty (s : string) : s <> EmptyString -> JS.truthy (Some s) = true.
Proof. now destruct s. Qed.

Lemma has_id_iff (productId : string) (product : Product.t) :
  has_id productId product = true <-> Product.id product = Some productId.
Proof.
  unfold has_id. destruct (Product.id product) as [i|].
  - rewrite String.eqb_eq. split; congruence.
  - split; discriminate.
Qed.

Lemma not_found_is_caught (customerId : string) :
  JS.includes ("Customer not found: " +:+ customerId) "Customer not found" = true.
Proof.
  change ("Customer not found: " +:+ customerId)
    with ("Customer not found" +:+ (": " +:+ customerId)).
  apply includes_prefix.
Qed.

Example replace_qualified :
  JS.replace "gid://shopify/Customer/123" "gid://shopify/Customer/" EmptyString = "123".
Proof. reflexivity. Qed.

Example replace_bare : JS.replace "123" "gid://shopify/Customer/" EmptyString = "123".
Proof. reflexivity. Qed.

Example replace_first_only : JS.replace "a-b-c" "-" EmptyString = "ab-c".
Proof. reflexivity. Qed.

Example status_in_message : JS.string_of_nat 500 = "500".
Proof. reflexivity. Qed.

(** ** The router over any upstream service *)

Section Generic.

Context {W : Type} {remote : Remote W}.

Lemma graphql_run (q : GqlRequest) (st : State W) :
  makeShopifyGraphQLRequest q st =
  (match fst (axios_post q (world st)) with
   | AxiosReject message => Throw message
   | AxiosResponse (Some errors) _ => Throw ("GraphQL Error: " +:+ errors)
   | AxiosResponse None data => Return data
   end, after_axios q st).
Proof.
  unfold makeShopifyGraphQLRequest, try_catch, bind, await_axios, after_axios, throw, ret.
  destruct (axios_post q (world st)) as [[message | [errors|] data] w]; reflexivity.
Qed.

(** A read asks the customer query once and nothing else. *)
Lemma read_state (customerId : string) (st : State W) :
  snd (getCustomerMetafield customerId st)
  = after_axios (getCustomer (customerGid customerId)) st.
Proof.
  unfold getCustomerMetafield, try_catch, bind. rewrite graphql_run.
  destruct (fst (axios_post _ _)) as [message | [errors|] data]; cbn.
  - unfold throw, ret. now destruct (JS.includes _ _).
  - unfold throw, ret. now destruct (JS.includes _ _).
  - destruct data as [ | [edges|] | nodes | errs]; cbn;
      try reflexivity;
      try (unfold throw, ret; now destruct (JS.includes _ _)).
    destruct (find is_wishlist_edge edges) as [e|]; [|reflexivity].
    now destruct (JSON_parse (Edge.value e)).
Qed.

(** C9. A request that fails the origin check of [validateStoreRequest]
    is answered 403 Forbidden by the gate itself, whatever its route and
    whatever its body or query hold (missing fields included: never 400),
    and the state is untouched: no remote call is made or logged. *)
Theorem gate_rejects (env : Env) (req : Req.t) (st : State W) :
  isValidOrigin env req = false ->
  wishlistRoutes env req st
  = (Return (Res.mk 403 (failure "Forbidden" "Request not authorized from this store")), st).
Proof.
  intros Hgate. unfold wishlistRoutes, validateStoreRequest.
  now rewrite Hgate.
Qed.

Lemma try_catch_responds {A : Type} (m : M W A) (handler : string -> A) (st : State W) :
  exists a st', try_catch m (fun error => ret (handler error)) st = (Return a, st').
Proof.
  unfold try_catch, ret. destruct (m st) as [[a|e] st']; eauto.
Qed.

(** The router answers every request: its handlers catch what they throw. *)
Lemma router_responds (env : Env) (req : Req.t) (st : State W) :
  exists res st', wishlistRoutes env req st = (Return res, st').
Proof.
  unfold wishlistRoutes.
  destruct (validateStoreRequest env req) as [res | isValidated]; [unfold ret; eauto |].
  destruct (Req.route req); [ | | | unfold ret; eauto];
    unfold post_add, get_root, delete_remove; apply try_catch_responds.
Qed.

Lemma route_add (env : Env) (req : Req.t) :
  isValidOrigin env req = true -> Req.route req = POST_add ->
  wishlistRoutes env req = post_add req true.
Proof.
  intros Hgate Hroute. unfold wishlistRoutes, validateStoreRequest.
  now rewrite Hgate, Hroute.
Qed.

Lemma route_get (env : Env) (req : Req.t) :
  isValidOrigin env req = true -> Req.route req = GET_root ->
  wishlistRoutes env req = get_root req true.
Proof.
  intros Hgate Hroute. unfold wishlistRoutes, validateStoreRequest.
  now rewrite Hgate, Hroute.
Qed.

Lemma route_remove (env : Env) (req : Req.t) :
  isValidOrigin env req = true -> Req.route req = DELETE_remove ->
  wishlistRoutes env req = delete_remove req.
Proof.
  intros Hgate Hroute. unfold wishlistRoutes, validateStoreRequest.
  now rewrite Hgate, Hroute.
Qed.

Lemma read_empty (customerId : string) (st : State W) (data : GqlData) :
  fst (axios_post (getCustomer (customerGid customerId)) (world st))
  = AxiosResponse None data ->
  empty_read data ->
  getCustomerMetafield customerId st
  = (Return [], after_axios (getCustomer (customerGid customerId)) st).
Proof.
  intros Hreply Hdata.
  unfold getCustomerMetafield, try_catch, bind. rewrite graphql_run, Hreply.
  inversion Hdata as [ | edges Hfind | edges e Hfind Hparse]; subst data; cbn.
  - now rewrite not_found_is_caught.
  - now rewrite Hfind.
  - now rewrite Hfind, Hparse.
Qed.

(** C4. When the customer query answers that there is no such customer,
    or the customer has no wishlist metafield yet, or the metafield value
    does not parse as JSON, the read returns the empty wishlist instead of
    throwing, after that one query; and GET / then answers 200 with an
    empty wishlist and count 0. *)
Theorem read_recovers_empty (env : Env) (req : Req.t) (customerId : string)
    (st : State W) (data : GqlData) :
  fst (axios_post (getCustomer (customerGid customerId)) (world st))
  = AxiosResponse None data ->
  empty_read data ->
  getCustomerMetafield customerId st
  = (Return [], after_axios (getCustomer (customerGid customerId)) st)
  /\ (isValidOrigin env req = true ->
      Req.route req = GET_root ->
      Req.query_customerId req = Some customerId ->
      customerId <> EmptyString ->
      wishlistRoutes env req st
      = (Return (Res.mk 200 (success None (listed customerId [] 0))),
         after_axios (getCustomer (customerGid customerId)) st)).
Proof.
  intros Hreply Hdata.
  pose proof (read_empty customerId st data Hreply Hdata) as Hread.
  split; [exact Hread |].
  intros Hgate Hroute Hid Hne.
  rewrite (route_get env req Hgate Hroute).
  unfold get_root, try_catch, bind. rewrite Hid, (truthy_nonempty _ Hne).
  cbn [negb JS.to_string]. now rewrite Hread.
Qed.

Lemma find_has_id_some (productId : string) (w : Wishlist) (product : Product.t) :
  In product w -> Product.id product = Some productId ->
  exists existing, find (has_id productId) w = Some existing.
Proof.
  intros Hin Hid. destruct (find (has_id productId) w) as [x|] eqn:Hfind; [now exists x |].
  pose proof (find_none _ _ Hfind product Hin) as Hno.
  unfold has_id in Hno. rewrite Hid, String.eqb_refl in Hno. discriminate.
Qed.

Lemma find_has_id_none (productId : string) (w : Wishlist) :
  (forall product, In product w -> Product.id product <> Some productId) ->
  find (has_id productId) w = None.
Proof.
  intros Hno. destruct (find (has_id productId) w) as [x|] eqn:Hfind; [|reflexivity].
  apply find_some in Hfind as [Hin Hid].
  unfold has_id in Hid. destruct (Product.id x) as [i|] eqn:Hi; [|discriminate].
  apply String.eqb_eq in Hid. subst i. now elim (Hno x Hin).
Qed.

Lemma filter_absent (productId : string) (w : Wishlist) :
  (forall product, In product w -> Product.id product <> Some productId) ->
  List.filter (fun product => negb (has_id productId product)) w = w.
Proof.
  induction w as [|x w IH]; intros Hno; [reflexivity |].
  cbn [List.filter].
  assert (Hx : has_id productId x = false).
  { unfold has_id. destruct (Product.id x) as [i|] eqn:Hi; [|reflexivity].
    apply String.eqb_neq. intros ->. now apply (Hno x (or_introl eq_refl)). }
  rewrite Hx. cbn [negb]. f_equal. apply IH.
  intros product Hin. apply Hno. now right.
Qed.

Lemma remove_absent (env : Env) (req : Req.t)
    (customerId productId : string) (w : Wishlist) (st st' : State W) :
  isValidOrigin env req = true ->
  Req.route req = DELETE_remove ->
  Req.body_customerId req = Some customerId ->
  Req.body_productId req = Some productId ->
  customerId <> EmptyString ->
  productId <> EmptyString ->
  getCustomerMetafield customerId st = (Return w, st') ->
  (forall product, In product w -> Product.id product <> Some productId) ->
  wishlistRoutes env req st
  = (Return (Res.mk 404 (failure "Product not found" "Product not found in wishlist")), st')
  /\ st' = after_axios (getCustomer (customerGid customerId)) st.
Proof.
  intros Hgate Hroute Hc Hp Hcne Hpne Hread Hno.
  split.
  - rewrite (route_remove env req Hgate Hroute).
    unfold delete_remove, try_catch, bind.
    rewrite Hc, Hp, (truthy_nonempty _ Hcne), (truthy_nonempty _ Hpne).
    cbn [negb orb JS.to_string]. rewrite Hread.
    rewrite (filter_absent productId w Hno), Nat.eqb_refl. reflexivity.
  - pose proof (read_state customerId st) as Hst. now rewrite Hread in Hst.
Qed.

Lemma add_conflict (env : Env) (req : Req.t)
    (customerId productId : string) (w : Wishlist) (product : Product.t)
    (st st' : State W) :
  isValidOrigin env req = true ->
  Req.route req = POST_add ->
  Req.body_customerId req = Some customerId ->
  Req.body_productId req = Some productId ->
  customerId <> EmptyString ->
  productId <> EmptyString ->
  getCustomerMetafield customerId st = (Return w, st') ->
  In product w -> Product.id product = Some productId ->
  wishlistRoutes env req st
  = (Return (Res.mk 409 (failure "Product already in wishlist"
                                 "This product is already in the customer's wishlist")), st')
  /\ st' = after_axios (getCustomer (customerGid customerId)) st.
Proof.
  intros Hgate Hroute Hc Hp Hcne Hpne Hread Hin Hid.
  split.
  - rewrite (route_add env req Hgate Hroute).
    unfold post_add, try_catch, bind.
    rewrite Hc, Hp, (truthy_nonempty _ Hcne), (truthy_nonempty _ Hpne).
    cbn [negb orb JS.to_string]. rewrite Hread.
    destruct (find_has_id_some productId w product Hin Hid) as [x ->]. reflexivity.
  - pose proof (read_state customerId st) as Hst. now rewrite Hread in Hst.
Qed.

Lemma map_nodes_state (nodes : list (option Node.t)) (st : State W) :
  snd (map_nodes nodes st) = st.
Proof.
  induction nodes as [|node nodes IH]; [reflexivity |].
  cbn [map_nodes]. unfold bind.
  destruct node as [[[i|] h t]|]; cbn; try reflexivity.
  destruct (map_nodes nodes st) as [[ds|m] st'] eqn:Hrest; cbn in *; now subst.
Qed.

Lemma map_nodes_unusable (nodes : list (option Node.t)) (st : State W) :
  existsb unusable nodes = true ->
  exists message, map_nodes nodes st = (Throw message, st).
Proof.
  induction nodes as [|node nodes IH]; [discriminate |].
  cbn [existsb map_nodes]. unfold bind.
  destruct node as [[[i|] h t]|]; cbn; eauto.
  intros Hrest. destruct (IH Hrest) as [message ->]. eauto.
Qed.

(** The lookup helper returns, whatever the upstream answers. *)
Lemma lookup_returns (productId : string) (st : State W) :
  exists details,
    getProductDetails [productId] st
    = (Return details, after_axios (getProducts [productPrefix +:+ productId]) st).
Proof.
  unfold getProductDetails, try_catch, bind. cbn [map].
  change ("gid://shopify/Product/" +:+ productId) with (productPrefix +:+ productId).
  rewrite graphql_run.
  destruct (fst (axios_post _ _)) as [message | [errors|] data]; cbn; eauto.
  destruct data as [ | customer | nodes | errs]; cbn; eauto.
  pose proof (map_nodes_state nodes
    (after_axios (getProducts [productPrefix +:+ productId]) st)) as Hst.
  destruct (map_nodes nodes _) as [[ds|m] st']; cbn in Hst; subst st'; eauto.
Qed.

Lemma lookup_failed (productId : string) (st : State W) :
  query_failed (fst (axios_post (getProducts [productPrefix +:+ productId]) (world st))) = true ->
  getProductDetails [productId] st
  = (Return [degraded productId],
     after_axios (getProducts [productPrefix +:+ productId]) st).
Proof.
  intros Hfail.
  unfold getProductDetails, try_catch, bind. cbn [map].
  change ("gid://shopify/Product/" +:+ productId) with (productPrefix +:+ productId).
  rewrite graphql_run.
  destruct (fst (axios_post _ _)) as [message | [errors|] data]; cbn;
    [reflexivity | reflexivity | discriminate].
Qed.

(** C5. In an add whose product-lookup query fails (the call is rejected
    or the response carries errors), the lookup helper still returns: the
    degraded details of the product. The entry appended has the given id,
    handle null, title "Product <id>", the current timestamp and the tag
    shopify-store; once it is written back, add answers 201 with that
    entry and the new count. *)
Theorem add_survives_lookup_failure (env : Env) (req : Req.t)
    (customerId productId : string) (w : Wishlist) (st st1 : State W) :
  isValidOrigin env req = true ->
  Req.route req = POST_add ->
  Req.body_customerId req = Some customerId ->
  Req.body_productId req = Some productId ->
  customerId <> EmptyString ->
  productId <> EmptyString ->
  getCustomerMetafield customerId st = (Return w, st1) ->
  (forall product, In product w -> Product.id product <> Some productId) ->
  query_failed (fst (axios_post (getProducts [productPrefix +:+ productId]) (world st1))) = true ->
  let st2 := after_axios (getProducts [productPrefix +:+ productId]) st1 in
  let entry := Product.mk (Some productId) None (Some ("Product " +:+ productId))
                          (toISOString (world st2)) "shopify-store" in
  getProductDetails [productId] st1 = (Return [degraded productId], st2)
  /\ forall st3,
       updateCustomerMetafield customerId (w ++ [entry]) st2 = (Return tt, st3) ->
       wishlistRoutes env req st
       = (Return (Res.mk 201 (success (Some "Product added to wishlist successfully")
                                      (added customerId entry (S (length w))))), st3).
Proof.
  intros Hgate Hroute Hc Hp Hcne Hpne Hread Hno Hfail st2 entry.
  pose proof (lookup_failed productId st1 Hfail) as Hlookup.
  split; [exact Hlookup |].
  intros st3 Hwrite.
  rewrite (route_add env req Hgate Hroute).
  unfold post_add, try_catch, bind.
  rewrite Hc, Hp, (truthy_nonempty _ Hcne), (truthy_nonempty _ Hpne).
  cbn [negb orb JS.to_string]. rewrite Hread, (find_has_id_none productId w Hno).
  rewrite Hlookup. unfold now. cbn [head newProduct degraded Details.id Details.handle Details.title].
  fold st2. fold entry. rewrite Hwrite.
  unfold ret. rewrite length_app. cbn [length]. now rewrite Nat.add_1_r.
Qed.

(** C10. When the product query itself succeeds but the response holds no
    product for the requested id (the slot of the id in [nodes] is null,
    as for a product that does not exist, or is a node without id, or
    there is no [nodes] list), the [TypeError] raised while mapping the
    result is caught inside [getProductDetails], which returns the
    degraded details {id, handle null, title "Product <id>"}; add goes on
    with the entry made of them and answers 201 once it is written back.
    And whatever the upstream answers to the lookup, the helper returns:
    add never throws from the enrichment step. *)
Theorem lookup_degrades_on_null_node :
  (forall (productId : string) (st : State W) (data : GqlData),
     fst (axios_post (getProducts [productPrefix +:+ productId]) (world st))
     = AxiosResponse None data ->
     mapping_raises data = true ->
     getProductDetails [productId] st
     = (Return [degraded productId],
        after_axios (getProducts [productPrefix +:+ productId]) st))
  /\ (forall (env : Env) (req : Req.t) (customerId productId : string) (w : Wishlist)
             (st st1 : State W) (data : GqlData),
        isValidOrigin env req = true ->
        Req.route req = POST_add ->
        Req.body_customerId req = Some customerId ->
        Req.body_productId req = Some productId ->
        customerId <> EmptyString ->
        productId <> EmptyString ->
        getCustomerMetafield customerId st = (Return w, st1) ->
        (forall product, In product w -> Product.id product <> Some productId) ->
        fst (axios_post (getProducts [productPrefix +:+ productId]) (world st1))
        = AxiosResponse None data ->
        mapping_raises data = true ->
        let st2 := after_axios (getProducts [productPrefix +:+ productId]) st1 in
        let entry := Product.mk (Some productId) None (Some ("Product " +:+ productId))
                                (toISOString (world st2)) "shopify-store" in
        forall st3,
          updateCustomerMetafield customerId (w ++ [entry]) st2 = (Return tt, st3) ->
          wishlistRoutes env req st
          = (Return (Res.mk 201 (success (Some "Product added to wishlist successfully")
                                         (added customerId entry (S (length w))))), st3))
  /\ (forall (productId : string) (st : State W),
        exists details st', getProductDetails [productId] st = (Return details, st')).
Proof.
  assert (Hdegrades :
            forall (productId : string) (st : State W) (data : GqlData),
              fst (axios_post (getProducts [productPrefix +:+ productId]) (world st))
              = AxiosResponse None data ->
              mapping_raises data = true ->
              getProductDetails [productId] st
              = (Return [degraded productId],
                 after_axios (getProducts [productPrefix +:+ productId]) st)).
  { intros productId st data Hreply Hbad.
    unfold getProductDetails, try_catch, bind. cbn [map].
    change ("gid://shopify/Product/" +:+ productId) with (productPrefix +:+ productId).
    rewrite graphql_run, Hreply.
    destruct data as [ | customer | nodes | errs]; cbn; try reflexivity.
    now destruct (map_nodes_unusable nodes
      (after_axios (getProducts [productPrefix +:+ productId]) st) Hbad) as [message ->]. }
  split; [exact Hdegrades | split].
  - intros env req customerId productId w st st1 data
           Hgate Hroute Hc Hp Hcne Hpne Hread Hno Hreply Hbad st2 entry st3 Hwrite.
    rewrite (route_add env req Hgate Hroute).
    unfold post_add, try_catch, bind.
    rewrite Hc, Hp, (truthy_nonempty _ Hcne), (truthy_nonempty _ Hpne).
    cbn [negb orb JS.to_string]. rewrite Hread, (find_has_id_none productId w Hno).
    rewrite (Hdegrades productId st1 data Hreply Hbad). unfold now.
    cbn [head newProduct degraded Details.id Details.handle Details.title].
    fold st2. fold entry. rewrite Hwrite.
    unfold ret. rewrite length_app. cbn [length]. now rewrite Nat.add_1_r.
  - intros productId st. destruct (lookup_returns productId st) as [details H]. eauto.
Qed.

(** *** The secondary channel *)

Lemma rest_log (customerId : string) (w : Wishlist) (st : State W) :
  exists calls, log (snd (updateCustomerMetafieldREST customerId w st)) = log st ++ calls.
Proof.
  unfold updateCustomerMetafieldREST, try_catch, bind, await_fetch, throw, ret, response_json.
  repeat match goal with
         | |- context [fetch ?r ?x] => destruct (fetch r x) as [[?|? ? ?] ?]; cbn
         | |- context [ok ?s] => destruct (ok s); cbn
         | |- context [match ?b with not_json => _ | json _ => _ end] => destruct b; cbn
         end;
    eexists; rewrite <- ?app_assoc; reflexivity.
Qed.

(** When the mutation call fails, the write is the REST fallback, run
    once: its failure is the caller's. *)
Lemma fallback_on_failure (customerId : string) (w : Wishlist) (st : State W) :
  let q := metafieldsSet (customerGid customerId) (wishlistMetafield w) in
  query_failed (fst (axios_post q (world st))) = true ->
  updateCustomerMetafield customerId w st
  = updateCustomerMetafieldREST customerId w (after_axios q st).
Proof.
  intros q Hfail.
  unfold updateCustomerMetafield, try_catch, bind. fold q.
  rewrite graphql_run.
  destruct (fst (axios_post q (world st))) as [message | [errors|] data]; cbn;
    [reflexivity | reflexivity | discriminate].
Qed.

(** When the mutation returns user errors, the REST fallback runs, and
    runs again if it throws. *)
Lemma fallback_on_user_errors (customerId : string) (w : Wishlist) (st : State W)
    (e : string) (errors : list string) :
  let q := metafieldsSet (customerGid customerId) (wishlistMetafield w) in
  fst (axios_post q (world st)) = AxiosResponse None (data_metafieldsSet (e :: errors)) ->
  updateCustomerMetafield customerId w st
  = match updateCustomerMetafieldREST customerId w (after_axios q st) with
    | (Return u, st') => (Return u, st')
    | (Throw _, st') => updateCustomerMetafieldREST customerId w st'
    end.
Proof.
  intros q Hreply.
  unfold updateCustomerMetafield, try_catch, bind. fold q.
  rewrite graphql_run, Hreply. cbn.
  now destruct (updateCustomerMetafieldREST customerId w (after_axios q st)) as [[u|m] st'].
Qed.

Lemma write_success (customerId : string) (w : Wishlist) (st : State W) :
  let q := metafieldsSet (customerGid customerId) (wishlistMetafield w) in
  fst (axios_post q (world st)) = AxiosResponse None (data_metafieldsSet []) ->
  updateCustomerMetafield customerId w st = (Return tt, after_axios q st).
Proof.
  intros q Hreply.
  unfold updateCustomerMetafield, try_catch, bind. fold q.
  now rewrite graphql_run, Hreply.
Qed.

Lemma rest_updates_existing (customerId : string) (w : Wishlist) (st : State W)
    (status : nat) (text : string) (metafields : list Metafield.t) (mf : Metafield.t) :
  let clean := JS.replace customerId customerPrefix EmptyString in
  fst (fetch (GET_metafields clean) (world st))
  = FetchResponse status text (json (Some metafields)) ->
  ok status = true ->
  find is_wishlist_metafield metafields = Some mf ->
  log (snd (updateCustomerMetafieldREST customerId w st))
  = log st ++ [fetch_call (GET_metafields clean);
               fetch_call (PUT_metafield clean (Metafield.id mf) (wishlistMetafield w))].
Proof.
  intros clean Hget Hok Hfind.
  unfold updateCustomerMetafieldREST, try_catch, bind, await_fetch, throw, ret, response_json.
  change (JS.replace customerId "gid://shopify/Customer/" EmptyString) with clean.
  destruct (fetch (GET_metafields clean) (world st)) as [r w1]. cbn [fst] in Hget.
  subst r. rewrite Hok. cbn.
  change (find _ metafields) with (find is_wishlist_metafield metafields).
  rewrite Hfind. cbn.
  repeat match goal with
         | |- context [fetch ?r ?x] => destruct (fetch r x) as [[?|? ? ?] ?]; cbn
         | |- context [ok ?s] => destruct (ok s); cbn
         | |- context [match ?b with not_json => _ | json _ => _ end] => destruct b; cbn
         end;
    rewrite <- ?app_assoc; reflexivity.
Qed.

Lemma rest_creates_otherwise (customerId : string) (w : Wishlist) (st : State W)
    (status : nat) (text : string) (metafields : option (list Metafield.t)) :
  let clean := JS.replace customerId customerPrefix EmptyString in
  fst (fetch (GET_metafields clean) (world st))
  = FetchResponse status text (json metafields) ->
  ok status = false \/ metafields = None \/
  (exists l, metafields = Some l /\ find is_wishlist_metafield l = None) ->
  log (snd (updateCustomerMetafieldREST customerId w st))
  = log st ++ [fetch_call (GET_metafields clean);
               fetch_call (POST_metafield clean (wishlistMetafield w))].
Proof.
  intros clean Hget Hcase.
  unfold updateCustomerMetafieldREST, try_catch, bind, await_fetch, throw, ret, response_json.
  change (JS.replace customerId "gid://shopify/Customer/" EmptyString) with clean.
  destruct (fetch (GET_metafields clean) (world st)) as [r w1]. cbn [fst] in Hget.
  subst r.
  assert (Hid : (if ok status
                 then option_map Metafield.id
                        match metafields with
                        | Some l => find is_wishlist_metafield l
                        | None => None
                        end
                 else None) = None).
  { destruct Hcase as [-> | [-> | [l [-> ->]]]]; [reflexivity | |]; now destruct (ok status). }
  destruct (ok status); cbn;
    change (match metafields with
            | Some l => find _ l
            | None => None
            end)
      with (match metafields with
            | Some l => find is_wishlist_metafield l
            | None => None
            end);
    try rewrite Hid; cbn;
    repeat match goal with
           | |- context [fetch ?r ?x] => destruct (fetch r x) as [[?|? ? ?] ?]; cbn
           | |- context [ok ?s] => destruct (ok s); cbn
           | |- context [match ?b with not_json => _ | json _ => _ end] => destruct b; cbn
           end;
    rewrite <- ?app_assoc; reflexivity.
Qed.

Lemma rest_same_customer (a b : string) (w : Wishlist) :
  JS.replace a customerPrefix EmptyString = JS.replace b customerPrefix EmptyString ->
  updateCustomerMetafieldREST (remote := remote) a w = updateCustomerMetafieldREST b w.
Proof.
  intros Hclean. unfold updateCustomerMetafieldREST.
  change (JS.replace a "gid://shopify/Customer/" EmptyString)
    with (JS.replace a customerPrefix EmptyString).
  now rewrite Hclean.
Qed.

Lemma gid_of_bare (customerId : string) :
  JS.startsWith customerId "gid://" = false ->
  customerGid customerId = customerPrefix +:+ customerId.
Proof. intros H. unfold customerGid. now rewrite H. Qed.

Lemma gid_of_qualified (customerId : string) :
  JS.startsWith customerId "gid://" = true -> customerGid customerId = customerId.
Proof. intros H. unfold customerGid. now rewrite H. Qed.

Lemma prefixed_is_qualified (customerId : string) :
  JS.startsWith (customerPrefix +:+ customerId) "gid://" = true.
Proof.
  unfold JS.startsWith.
  change (customerPrefix +:+ customerId)
    with ("gid://" +:+ ("shopify/Customer/" +:+ customerId)).
  apply prefix_append.
Qed.

Lemma write_first_call (customerId : string) (w : Wishlist) (st : State W) :
  exists calls,
    log (snd (updateCustomerMetafield customerId w st))
    = log st ++ axios_call (metafieldsSet (customerGid customerId) (wishlistMetafield w))
                :: calls.
Proof.
  unfold updateCustomerMetafield, try_catch, bind. rewrite graphql_run.
  set (q := metafieldsSet (customerGid customerId) (wishlistMetafield w)).
  assert (Hrest : exists calls,
            log (snd (updateCustomerMetafieldREST customerId w (after_axios q st)))
            = log st ++ axios_call q :: calls).
  { destruct (rest_log customerId w (after_axios q st)) as [calls ->].
    exists calls. cbn [after_axios log]. now rewrite <- app_assoc. }
  destruct (fst (axios_post q (world st))) as [message | [errors|] data]; cbn; try exact Hrest.
  destruct data as [ | customer | nodes | [|e errs]]; cbn; try exact Hrest.
  - exists []. reflexivity.
  - destruct (updateCustomerMetafieldREST customerId w (after_axios q st))
      as [[u|m] st1] eqn:Hfirst.
    + destruct Hrest as [calls Hlog]. now exists calls.
    + destruct Hrest as [calls Hlog]. cbn [snd] in Hlog.
      destruct (rest_log customerId w st1) as [calls' ->].
      exists (calls ++ calls'). rewrite Hlog. now rewrite <- app_assoc.
Qed.

(** C6. A customer id that starts with gid:// is used as it is, any other
    is prefixed with gid://shopify/Customer/. The read sends the customer
    query for the normalized id, and the write starts with the
    [metafieldsSet] mutation whose owner is the normalized id. Hence a
    bare id and its qualified form read the same wishlist and, the bare id
    not containing the prefix, write the same wishlist through either
    channel. *)
Theorem customer_id_normalization (customerId : string) :
  (JS.startsWith customerId "gid://" = true -> customerGid customerId = customerId)
  /\ (JS.startsWith customerId "gid://" = false ->
      customerGid customerId = customerPrefix +:+ customerId)
  /\ (forall st : State W,
        snd (getCustomerMetafield customerId st)
        = after_axios (getCustomer (customerGid customerId)) st)
  /\ (forall (w : Wishlist) (st : State W),
        exists calls,
          log (snd (updateCustomerMetafield customerId w st))
          = log st ++ axios_call (metafieldsSet (customerGid customerId)
                                                (wishlistMetafield w)) :: calls)
  /\ (JS.startsWith customerId "gid://" = false ->
      (forall st : State W,
         getCustomerMetafield (customerPrefix +:+ customerId) st
         = getCustomerMetafield customerId st)
      /\ (JS.includes customerId customerPrefix = false ->
          forall (w : Wishlist) (st : State W),
            updateCustomerMetafield (customerPrefix +:+ customerId) w st
            = updateCustomerMetafield customerId w st)).
Proof.
  split; [apply gid_of_qualified |].
  split; [apply gid_of_bare |].
  split; [apply read_state |].
  split; [apply write_first_call |].
  intros Hbare.
  pose proof (gid_of_bare customerId Hbare) as Hgid.
  pose proof (gid_of_qualified _ (prefixed_is_qualified customerId)) as Hgid'.
  split.
  - intros st. unfold getCustomerMetafield, try_catch, bind.
    rewrite Hgid, Hgid', graphql_run.
    destruct (fst (axios_post _ _)) as [message | [errors|] data]; cbn; try reflexivity.
    destruct data as [ | [edges|] | nodes | errs]; cbn; try reflexivity;
      now rewrite !not_found_is_caught.
  - intros Hclean w st. unfold updateCustomerMetafield.
    rewrite Hgid, Hgid'.
    rewrite (rest_same_customer (customerPrefix +:+ customerId) customerId w); [reflexivity |].
    now rewrite replace_prefix, (replace_absent _ _ Hclean).
Qed.

Lemma filter_le (productId : string) (w : Wishlist) :
  length (List.filter (fun product => negb (has_id productId product)) w) <= length w.
Proof.
  induction w as [|x w IH]; [reflexivity |].
  cbn [List.filter length]. destruct (negb (has_id productId x)); cbn [length]; lia.
Qed.

Lemma filter_present (productId : string) (w : Wishlist) (product : Product.t) :
  In product w -> has_id productId product = true ->
  length (List.filter (fun product => negb (has_id productId product)) w) < length w.
Proof.
  induction w as [|x w IH]; intros Hin Hid; [contradiction |].
  cbn [List.filter length]. destruct Hin as [-> | Hin].
  - rewrite Hid. cbn [negb]. pose proof (filter_le productId w). lia.
  - specialize (IH Hin Hid). destruct (negb (has_id productId x)); cbn [length]; lia.
Qed.

(** C7, amended. Product ids are not normalized. Add answers 409 exactly
    when an entry of the wishlist read has the very string [productId] as
    its id, remove answers 404 exactly when no entry has, and the lookup
    asks for gid://shopify/Product/ followed by [productId], whatever
    [productId] is. *)
Theorem product_ids_are_verbatim (env : Env) (req : Req.t)
    (customerId productId : string) (w : Wishlist) (st st1 : State W) :
  isValidOrigin env req = true ->
  Req.body_customerId req = Some customerId ->
  Req.body_productId req = Some productId ->
  customerId <> EmptyString ->
  productId <> EmptyString ->
  getCustomerMetafield customerId st = (Return w, st1) ->
  (Req.route req = POST_add ->
   (status_of (wishlistRoutes env req st) = Some 409
    <-> exists product, In product w /\ Product.id product = Some productId))
  /\ (Req.route req = DELETE_remove ->
      (status_of (wishlistRoutes env req st) = Some 404
       <-> forall product, In product w -> Product.id product <> Some productId))
  /\ snd (getProductDetails [productId] st1)
     = after_axios (getProducts [productPrefix +:+ productId]) st1.
Proof.
  intros Hgate Hc Hp Hcne Hpne Hread.
  split; [|split].
  - intros Hroute. split.
    + intros Hstatus.
      destruct (find (has_id productId) w) as [x|] eqn:Hfind.
      * apply find_some in Hfind as [Hin Hid]. exists x. split; [exact Hin |].
        now apply has_id_iff.
      * exfalso. revert Hstatus.
        rewrite (route_add env req Hgate Hroute).
        unfold status_of, post_add, try_catch, bind.
        rewrite Hc, Hp, (truthy_nonempty _ Hcne), (truthy_nonempty _ Hpne).
        cbn [negb orb JS.to_string]. rewrite Hread, Hfind.
        destruct (lookup_returns productId st1) as [details ->].
        unfold now.
        destruct (updateCustomerMetafield _ _ _) as [[u|m] st3]; cbn; discriminate.
    + intros [product [Hin Hid]].
      destruct (add_conflict env req customerId productId w product st st1)
        as [Hres _]; try assumption.
      unfold status_of. now rewrite Hres.
  - intros Hroute. split.
    + intros Hstatus product Hin Hid.
      apply has_id_iff in Hid.
      pose proof (filter_present productId w product Hin Hid) as Hlt.
      revert Hstatus.
      rewrite (route_remove env req Hgate Hroute).
      unfold status_of, delete_remove, try_catch, bind.
      rewrite Hc, Hp, (truthy_nonempty _ Hcne), (truthy_nonempty _ Hpne).
      cbn [negb orb JS.to_string]. rewrite Hread.
      destruct (Nat.eqb_spec
        (length (List.filter (fun product => negb (has_id productId product)) w))
        (length w)) as [Heq | _]; [lia |].
      destruct (updateCustomerMetafield _ _ _) as [[u|m] st3]; cbn; discriminate.
    + intros Hno.
      destruct (remove_absent env req customerId productId w st st1)
        as [Hres _]; try assumption.
      unfold status_of. now rewrite Hres.
  - destruct (lookup_returns productId st1) as [details ->]. reflexivity.
Qed.

End Generic.

(** ** The router over the in-memory store *)

Section OverShop.

Implicit Types (shop : Shop.t) (st : State Shop.t).

Lemma shop_read (customerId c : string) st (m : option (positive * JsonText)) :
  refers_to customerId c ->
  Shop.customers (world st) !! c = Some m ->
  getCustomerMetafield customerId st
  = (Return (Shop.stored (world st) c),
     mkState (world st) (log st ++ [axios_call (getCustomer (customerGid customerId))])).
Proof.
  intros [Hgid _] Hc.
  unfold getCustomerMetafield, try_catch, bind. rewrite graphql_run.
  unfold after_axios. cbn [axios_post shop Shop.axios_post fst snd].
  unfold Shop.customer_of, Shop.stored. rewrite Hgid, strip_append, Hc.
  destruct m as [[i [products | raw]]|]; reflexivity.
Qed.

Lemma shop_lookup (productId : string) st :
  getProductDetails [productId] st
  = (Return [shop_details (world st) productId],
     mkState (world st) (log st ++ [axios_call (getProducts [productPrefix +:+ productId])])).
Proof.
  unfold getProductDetails, try_catch, bind. cbn [map].
  change ("gid://shopify/Product/" +:+ productId) with (productPrefix +:+ productId).
  rewrite graphql_run.
  unfold after_axios, shop_details. cbn [axios_post shop Shop.axios_post].
  destruct (Shop.products_api (world st)); [|reflexivity].
  cbn [fst snd map]. unfold Shop.node_of. rewrite strip_append.
  destruct (Shop.catalog (world st) !! productId) as [[handle title]|]; [|reflexivity].
  cbn. unfold ret, bind. cbn.
  change ("gid://shopify/Product/") with productPrefix.
  now rewrite replace_prefix.
Qed.

Lemma shop_rest (customerId c : string) (w : Wishlist) st
    (m : option (positive * JsonText)) :
  refers_to customerId c ->
  Shop.customers (world st) !! c = Some m ->
  exists calls,
    updateCustomerMetafieldREST customerId w st
    = (Return tt, mkState (Shop.set_value c (WishlistText w) (world st)) (log st ++ calls)).
Proof.
  intros [_ Hclean] Hc.
  unfold updateCustomerMetafieldREST, try_catch, bind, await_fetch.
  change (JS.replace customerId "gid://shopify/Customer/" EmptyString)
    with (JS.replace customerId customerPrefix EmptyString).
  rewrite Hclean.
  cbn [fetch shop Shop.fetch]. rewrite Hc. cbn [world log].
  destruct m as [[i v]|]; cbn; rewrite Hc; cbn.
  - rewrite Pos.eqb_refl. cbn. eexists. rewrite <- app_assoc. reflexivity.
  - eexists. rewrite <- app_assoc. reflexivity.
Qed.

Lemma shop_write (customerId c : string) (w : Wishlist) st
    (m : option (positive * JsonText)) :
  refers_to customerId c ->
  Shop.customers (world st) !! c = Some m ->
  exists calls,
    updateCustomerMetafield customerId w st
    = (Return tt, mkState (Shop.set_value c (WishlistText w) (world st)) (log st ++ calls)).
Proof.
  intros Hrefers Hc.
  pose proof Hrefers as [Hgid _].
  unfold updateCustomerMetafield, try_catch, bind. rewrite graphql_run.
  unfold after_axios. cbn [axios_post shop Shop.axios_post].
  destruct (Shop.primary (world st)) eqn:Hprimary; cbn [fst snd].
  - rewrite Hgid, strip_append, Hc. cbn. eexists. reflexivity.
  - cbn.
    destruct (shop_rest customerId c w
                (mkState (world st)
                   (log st ++ [axios_call (metafieldsSet (customerGid customerId)
                                                         (wishlistMetafield w))]))
                m Hrefers Hc) as [calls Hrest].
    rewrite Hgid in Hrest |- *. rewrite Hrest. cbn [world log].
    eexists. rewrite <- app_assoc. reflexivity.
  - cbn.
    destruct (shop_rest customerId c w
                (mkState (world st)
                   (log st ++ [axios_call (metafieldsSet (customerGid customerId)
                                                         (wishlistMetafield w))]))
                m Hrefers Hc) as [calls Hrest].
    rewrite Hgid in Hrest |- *. rewrite Hrest. cbn [world log].
    eexists. rewrite <- app_assoc. reflexivity.
Qed.

Lemma stored_set_value (c : string) (w : Wishlist) shop
    (m : option (positive * JsonText)) :
  Shop.customers shop !! c = Some m ->
  Shop.stored (Shop.set_value c (WishlistText w) shop) c = w
  /\ exists m', Shop.customers (Shop.set_value c (WishlistText w) shop) !! c = Some m'.
Proof.
  intros Hc. unfold Shop.stored, Shop.set_value. rewrite Hc.
  destruct m as [[i v]|]; cbn; rewrite lookup_insert_eq; eauto.
Qed.

Lemma shop_add (env : Env) (req : Req.t) (customerId c productId : string) st
    (m : option (positive * JsonText)) :
  isValidOrigin env req = true ->
  Req.route req = POST_add ->
  Req.body_customerId req = Some customerId ->
  Req.body_productId req = Some productId ->
  customerId <> EmptyString ->
  productId <> EmptyString ->
  refers_to customerId c ->
  Shop.customers (world st) !! c = Some m ->
  (forall product, In product (Shop.stored (world st) c) ->
                   Product.id product <> Some productId) ->
  let entry := newProduct (Some (shop_details (world st) productId))
                          (Shop.clock (world st)) "shopify-store" in
  let w := Shop.stored (world st) c ++ [entry] in
  exists calls,
    wishlistRoutes env req st
    = (Return (Res.mk 201 (success (Some "Product added to wishlist successfully")
                                   (added customerId entry (length w)))),
       mkState (Shop.set_value c (WishlistText w) (world st)) (log st ++ calls)).
Proof.
  intros Hgate Hroute Hc Hp Hcne Hpne Hrefers Hm Hno entry w.
  rewrite (route_add env req Hgate Hroute).
  unfold post_add, try_catch, bind.
  rewrite Hc, Hp, (truthy_nonempty _ Hcne), (truthy_nonempty _ Hpne).
  cbn [negb orb JS.to_string].
  rewrite (shop_read customerId c st m Hrefers Hm).
  rewrite (find_has_id_none productId _ Hno).
  rewrite shop_lookup. unfold now. cbn [world log head toISOString shop].
  fold entry. fold w.
  match goal with
  | |- context [updateCustomerMetafield customerId w ?s] =>
      destruct (shop_write customerId c w s m Hrefers Hm) as [calls Hwrite]
  end.
  rewrite Hwrite. cbn [world log]. unfold ret.
  eexists. rewrite <- !app_assoc. reflexivity.
Qed.

Lemma shop_remove (env : Env) (req : Req.t) (customerId c productId : string) st
    (m : option (positive * JsonText)) (product : Product.t) :
  isValidOrigin env req = true ->
  Req.route req = DELETE_remove ->
  Req.body_customerId req = Some customerId ->
  Req.body_productId req = Some productId ->
  customerId <> EmptyString ->
  productId <> EmptyString ->
  refers_to customerId c ->
  Shop.customers (world st) !! c = Some m ->
  In product (Shop.stored (world st) c) ->
  Product.id product = Some productId ->
  let w := List.filter (fun product => negb (has_id productId product))
                       (Shop.stored (world st) c) in
  exists calls,
    wishlistRoutes env req st
    = (Return (Res.mk 200 (success (Some "Product removed from wishlist successfully")
                                   (removed customerId productId (length w)))),
       mkState (Shop.set_value c (WishlistText w) (world st)) (log st ++ calls)).
Proof.
  intros Hgate Hroute Hc Hp Hcne Hpne Hrefers Hm Hin Hid w.
  rewrite (route_remove env req Hgate Hroute).
  unfold delete_remove, try_catch, bind.
  rewrite Hc, Hp, (truthy_nonempty _ Hcne), (truthy_nonempty _ Hpne).
  cbn [negb orb JS.to_string].
  rewrite (shop_read customerId c st m Hrefers Hm).
  fold w.
  pose proof (filter_present productId _ product Hin (proj2 (has_id_iff _ _) Hid)) as Hlt.
  fold w in Hlt.
  destruct (Nat.eqb_spec (length w) (length (Shop.stored (world st) c))) as [Heq | _]; [lia |].
  match goal with
  | |- context [updateCustomerMetafield customerId w ?s] =>
      destruct (shop_write customerId c w s m Hrefers Hm) as [calls Hwrite]
  end.
  rewrite Hwrite. cbn [world log]. unfold ret.
  eexists. rewrite <- !app_assoc. reflexivity.
Qed.

Lemma shop_details_id shop (productId : string) :
  Details.id (shop_details shop productId) = productId.
Proof.
  unfold shop_details. destruct (Shop.products_api shop); [|reflexivity].
  now destruct (Shop.catalog shop !! productId) as [[handle title]|].
Qed.




End OverShop.


Lemma refers_qualified (c : string) : refers_to (customerPrefix +:+ c) c.
Proof.
  split.
  - apply gid_of_qualified, prefixed_is_qualified.
  - apply replace_prefix.
Qed.

Lemma refers_bare (c : string) :
  JS.startsWith c "gid://" = false -> JS.includes c customerPrefix = false ->
  refers_to c c.
Proof.
  intros Hbare Hclean. split.
  - now apply gid_of_bare.
  - now apply replace_absent.
Qed.

(** A customer query leaves the store as it is. *)
Lemma shop_query_keeps_store (gid : string) (st : State Shop.t) :
  world (after_axios (getCustomer gid) st) = world st.
Proof. reflexivity. Qed.

(** ** The claims that span both models *)

(** C3. A remove whose product id is the id of no entry of the wishlist
    just read answers 404 Product not found, and the read is the only
    remote call of the request: nothing is written back. On the store
    the collection is therefore what it was, in length and in contents. *)
Theorem remove_absent_is_not_found :
  (forall (W : Type) (remote : Remote W) (env : Env) (req : Req.t)
          (customerId productId : string) (w : Wishlist) (st st' : State W),
     isValidOrigin env req = true ->
     Req.route req = DELETE_remove ->
     Req.body_customerId req = Some customerId ->
     Req.body_productId req = Some productId ->
     customerId <> EmptyString ->
     productId <> EmptyString ->
     getCustomerMetafield customerId st = (Return w, st') ->
     (forall product, In product w -> Product.id product <> Some productId) ->
     wishlistRoutes env req st
     = (Return (Res.mk 404 (failure "Product not found" "Product not found in wishlist")),
        st')
     /\ st' = after_axios (getCustomer (customerGid customerId)) st)
  /\ (forall (env : Env) (req : Req.t) (customerId productId : string)
             (w : Wishlist) (st st' : State Shop.t),
        isValidOrigin env req = true ->
        Req.route req = DELETE_remove ->
        Req.body_customerId req = Some customerId ->
        Req.body_productId req = Some productId ->
        customerId <> EmptyString ->
        productId <> EmptyString ->
        getCustomerMetafield customerId st = (Return w, st') ->
        (forall product, In product w -> Product.id product <> Some productId) ->
        status_of (wishlistRoutes env req st) = Some 404
        /\ forall c, Shop.stored (world (snd (wishlistRoutes env req st))) c
                     = Shop.stored (world st) c).
Proof.
  split.
  - intros W remote. apply remove_absent.
  - intros env req customerId productId w st st' Hgate Hroute Hc Hp Hcne Hpne Hread Hno.
    destruct (remove_absent env req customerId productId w st st') as [Hres Hst];
      try assumption.
    unfold status_of. rewrite Hres. split; [reflexivity |].
    intros c. cbn [snd]. now rewrite Hst, shop_query_keeps_store.
Qed.

(** C1. The write policy on the replies [Demo.flaky]: the mutation
    reports a user error, so the REST fallback runs with the same
    metafield object; its POST gets a 500 and it throws; the [catch] of
    [updateCustomerMetafield] then runs the fallback a second time, and the
    write returns normally: the failure of the secondary channel has not
    reached the caller. *)
Theorem user_error_fallback_runs_twice :
  let w := [Demo.tee] in
  let q := metafieldsSet "gid://shopify/Customer/123" (wishlistMetafield w) in
  fst (axios_post q Demo.flaky) = AxiosResponse None (data_metafieldsSet ["Access denied"])
  /\ fst (updateCustomerMetafieldREST "123" w (after_axios q (boot Demo.flaky)))
     = Throw "REST API Error: 500 - Internal Server Error"
  /\ fst (updateCustomerMetafield "123" w (boot Demo.flaky)) = Return tt
  /\ log (snd (updateCustomerMetafield "123" w (boot Demo.flaky)))
     = [ axios_call q;
         fetch_call (GET_metafields "123");
         fetch_call (POST_metafield "123" (wishlistMetafield w));
         fetch_call (GET_metafields "123");
         fetch_call (POST_metafield "123" (wishlistMetafield w)) ].
Proof. repeat split. Qed.

(** ** Counterexamples *)

(** C7, as stated, fails: customer 456 has the tee under the bare id 9;
    adding the qualified form of the same id is not a conflict but a
    second entry, and removing by the qualified form finds nothing. *)
Lemma qualified_product_id_is_another_product :
  Shop.stored Demo.store "456" = [Demo.tee]
  /\ Product.id Demo.tee = Some "9"
  /\ status_of (wishlistRoutes Demo.env (Demo.add "456" "gid://shopify/Product/9")
                               (boot Demo.store)) = Some 201
  /\ length (Shop.stored
               (world (snd (wishlistRoutes Demo.env
                              (Demo.add "456" "gid://shopify/Product/9")
                              (boot Demo.store)))) "456") = 2
  /\ status_of (wishlistRoutes Demo.env (Demo.remove "456" "gid://shopify/Product/9")
                               (boot Demo.store)) = Some 404.
Proof. repeat split. Qed.

(** ** The theorems at sample inputs *)


Lemma remove_absent_is_not_found_witness :
  wishlistRoutes Demo.env (Demo.remove "456" "10") (boot Demo.store)
  = (Return (Res.mk 404 (failure "Product not found" "Product not found in wishlist")),
     after_axios (getCustomer "gid://shopify/Customer/456") (boot Demo.store))
  /\ Shop.stored (world (snd (wishlistRoutes Demo.env (Demo.remove "456" "10")
                                             (boot Demo.store)))) "456"
     = [Demo.tee].
Proof.
  assert (Hno : forall product, In product [Demo.tee] -> Product.id product <> Some "10").
  { intros product [<- | []]. discriminate. }
  split.
  - refine (proj1 (proj1 remove_absent_is_not_found Shop.t shop Demo.env
                     (Demo.remove "456" "10") "456" "10" [Demo.tee] (boot Demo.store) _
                     eq_refl eq_refl eq_refl eq_refl _ _ eq_refl Hno));
      discriminate.
  - refine (proj2 (proj2 remove_absent_is_not_found Demo.env
                     (Demo.remove "456" "10") "456" "10" [Demo.tee] (boot Demo.store) _
                     eq_refl eq_refl eq_refl eq_refl _ _ eq_refl Hno) "456");
      discriminate.
Defined.

Lemma read_recovers_empty_witness :
  wishlistRoutes Demo.env (Demo.get "123") (boot Demo.store)
  = (Return (Res.mk 200 (success None (listed "123" [] 0))),
     after_axios (getCustomer "gid://shopify/Customer/123") (boot Demo.store))
  /\ getCustomerMetafield "789" (boot Demo.store)
     = (Return [], after_axios (getCustomer "gid://shopify/Customer/789") (boot Demo.store))
  /\ getCustomerMetafield "000" (boot Demo.store)
     = (Return [], after_axios (getCustomer "gid://shopify/Customer/000") (boot Demo.store)).
Proof.
  split; [|split].
  - refine (proj2 (read_recovers_empty Demo.env (Demo.get "123") "123" (boot Demo.store)
                     (data_customer (Some [])) eq_refl (no_metafield [] eq_refl))
                  eq_refl eq_refl eq_refl _).
    discriminate.
  - exact (proj1 (read_recovers_empty Demo.env (Demo.get "789") "789" (boot Demo.store)
                    (data_customer (Some [Edge.mk "custom" "wishlist_products" (Malformed "[{")]))
                    eq_refl
                    (parse_failure
                       [Edge.mk "custom" "wishlist_products" (Malformed "[{")]
                       (Edge.mk "custom" "wishlist_products" (Malformed "[{"))
                       eq_refl eq_refl))).
  - exact (proj1 (read_recovers_empty Demo.env (Demo.get "000") "000" (boot Demo.store)
                    (data_customer None) eq_refl customer_not_found)).
Defined.

Lemma add_survives_lookup_failure_witness :
  wishlistRoutes Demo.env (Demo.add "123" "9") (boot Demo.lookup_down)
  = (Return (Res.mk 201
               (success (Some "Product added to wishlist successfully")
                  (added "123"
                     (Product.mk (Some "9") None (Some "Product 9")
                                 "2024-02-02T00:00:00.000Z" "shopify-store") 1))),
     snd (wishlistRoutes Demo.env (Demo.add "123" "9") (boot Demo.lookup_down))).
Proof.
  refine (proj2 (add_survives_lookup_failure Demo.env (Demo.add "123" "9") "123" "9" []
                   (boot Demo.lookup_down) _
                   eq_refl eq_refl eq_refl eq_refl _ _ eq_refl _ eq_refl) _ eq_refl);
    [discriminate | discriminate | intros product []].
Defined.

Lemma customer_id_normalization_witness :
  customerGid "123" = "gid://shopify/Customer/123"
  /\ (forall st : State Shop.t,
        getCustomerMetafield "gid://shopify/Customer/123" st = getCustomerMetafield "123" st)
  /\ (forall (w : Wishlist) (st : State Shop.t),
        updateCustomerMetafield "gid://shopify/Customer/123" w st
        = updateCustomerMetafield "123" w st).
Proof.
  pose proof (customer_id_normalization (W := Shop.t) "123") as [_ [Hbare [_ [_ Hsame]]]].
  split; [exact (Hbare eq_refl) |].
  destruct (Hsame eq_refl) as [Hread Hwrite].
  split; [exact Hread | exact (Hwrite eq_refl)].
Defined.

Lemma product_ids_are_verbatim_witness :
  (status_of (wishlistRoutes Demo.env (Demo.add "456" "9") (boot Demo.store)) = Some 409
   <-> exists product, In product [Demo.tee] /\ Product.id product = Some "9")
  /\ snd (getProductDetails ["9"]
            (after_axios (getCustomer "gid://shopify/Customer/456") (boot Demo.store)))
     = after_axios (getProducts ["gid://shopify/Product/9"])
         (after_axios (getCustomer "gid://shopify/Customer/456") (boot Demo.store)).
Proof.
  pose proof (product_ids_are_verbatim Demo.env (Demo.add "456" "9") "456" "9" [Demo.tee]
                (boot Demo.store) _ eq_refl eq_refl eq_refl
                ltac:(discriminate) ltac:(discriminate) eq_refl) as [Hadd [_ Hlookup]].
  split; [exact (Hadd eq_refl) | exact Hlookup].
Defined.


Lemma gate_rejects_witness :
  isValidOrigin Demo.env Demo.stranger = false
  /\ Req.body_customerId Demo.stranger = None
  /\ wishlistRoutes Demo.env Demo.stranger (boot Demo.store)
     = (Return (Res.mk 403 (failure "Forbidden" "Request not authorized from this store")),
        boot Demo.store).
Proof.
  split; [reflexivity |]. split; [reflexivity |].
  exact (gate_rejects Demo.env Demo.stranger (boot Demo.store) eq_refl).
Defined.

Lemma lookup_degrades_on_null_node_witness :
  let st := after_axios (getCustomer "gid://shopify/Customer/123") (boot Demo.null_node) in
  getProductDetails ["9"] st
  = (Return [degraded "9"], after_axios (getProducts ["gid://shopify/Product/9"]) st)
  /\ fst (wishlistRoutes Demo.env (Demo.add "123" "9") (boot Demo.null_node))
     = Return (Res.mk 201
                 (success (Some "Product added to wishlist successfully")
                    (added "123"
                       (Product.mk (Some "9") None (Some "Product 9")
                                   "2024-02-02T00:00:00.000Z" "shopify-store") 1))).
Proof.
  split.
  - exact (proj1 (lookup_degrades_on_null_node (W := Scripted.t)) "9"
                 (after_axios (getCustomer "gid://shopify/Customer/123")
                              (boot Demo.null_node))
                 (data_nodes [None]) eq_refl eq_refl).
  - refine (f_equal fst
              (proj1 (proj2 (lookup_degrades_on_null_node (W := Scripted.t)))
                     Demo.env (Demo.add "123" "9") "123" "9" [] (boot Demo.null_node) _
                     (data_nodes [None])
                     eq_refl eq_refl eq_refl eq_refl _ _ eq_refl _ eq_refl eq_refl
                     _ eq_refl));
      [discriminate | discriminate | intros product []].
Defined.

(** * Further properties of the router *)

(** ** The gate *)

Lemma production_gate (env : Env) (req : Req.t) :
  NODE_ENV env <> Some "development" ->
  isValidOrigin env req
  = JS.truthy (JS.or_else (Req.Origin req) (Req.Referer req))
    && JS.startsWith (JS.to_string (JS.or_else (Req.Origin req) (Req.Referer req)))
                     (JS.to_string (SHOPIFY_STORE_URL env)).
Proof.
  intros Hmode. unfold isValidOrigin.
  destruct (NODE_ENV env) as [s|]; [|reflexivity].
  repeat (destruct s as [|[[] [] [] [] [] [] [] []] s]; try reflexivity).
  now elim Hmode.
Qed.

Lemma development_gate (env : Env) (req : Req.t) :
  NODE_ENV env = Some "development" ->
  isValidOrigin env req
  = JS.truthy (Req.host req)
    && JS.includes (JS.to_string (Req.host req)) (JS.to_string (DEVELOPMENT_URL env)).
Proof. intros Hmode. unfold isValidOrigin. now rewrite Hmode. Qed.

Lemma substring_prefix (s t : string) :
  String.substring 0 (String.length s) (s +:+ t) = s.
Proof. induction s as [|a s IH]; simpl; [now destruct t | now rewrite IH]. Qed.

Lemma includes_infix (a d b : string) : JS.includes (a +:+ d +:+ b) d = true.
Proof.
  unfold JS.includes.
  destruct (String.index 0 d (a +:+ d +:+ b)) as [i|] eqn:Hindex; [reflexivity |].
  exfalso. destruct d as [|c d].
  - apply String.index_correct4 in Hindex. lia.
  - apply (String.index_correct3 _ (String.length a) _ _ Hindex); [discriminate | lia |].
    now rewrite substring_skip, substring_prefix.
Qed.

(** X1. Outside development the gate compares by prefix: a request whose
    Origin header (or, when Origin is absent or empty, whose Referer)
    is the configured store URL followed by anything at all is let
    through to the handlers. *)
Theorem gate_admits_extensions_of_store_url (env : Env) (req : Req.t)
    (storeUrl rest : string) :
  NODE_ENV env <> Some "development" ->
  SHOPIFY_STORE_URL env = Some storeUrl ->
  JS.or_else (Req.Origin req) (Req.Referer req) = Some (storeUrl +:+ rest) ->
  storeUrl +:+ rest <> EmptyString ->
  validateStoreRequest env req = inr true.
Proof.
  intros Hmode Hstore Horigin Hne.
  unfold validateStoreRequest.
  rewrite (production_gate env req Hmode), Hstore, Horigin.
  cbn [JS.to_string]. unfold JS.startsWith.
  now rewrite prefix_append, (truthy_nonempty _ Hne).
Qed.

(** X2. Outside development a non-empty Origin header decides alone: when
    it does not start with the store URL the request is answered 403
    without any remote call, whatever the Referer header says. *)
Theorem origin_shadows_referer {W : Type} {remote : Remote W} (env : Env) (req : Req.t)
    (origin : string) (st : State W) :
  NODE_ENV env <> Some "development" ->
  Req.Origin req = Some origin ->
  origin <> EmptyString ->
  JS.startsWith origin (JS.to_string (SHOPIFY_STORE_URL env)) = false ->
  wishlistRoutes env req st
  = (Return (Res.mk 403 (failure "Forbidden" "Request not authorized from this store")), st).
Proof.
  intros Hmode Horigin Hne Hforeign.
  unfold wishlistRoutes, validateStoreRequest.
  rewrite (production_gate env req Hmode), Horigin.
  unfold JS.or_else. rewrite (truthy_nonempty _ Hne).
  cbv iota. rewrite (truthy_nonempty _ Hne).
  cbn [JS.to_string]. now rewrite Hforeign.
Qed.

(** X3. In development the gate looks at the Host header only: a request
    whose host contains DEVELOPMENT_URL is let through whatever its Origin
    and Referer are, and a request without Host header is answered 403. *)
Theorem development_gate_reads_host_only :
  (forall (env : Env) (req : Req.t) (url before after : string),
     NODE_ENV env = Some "development" ->
     DEVELOPMENT_URL env = Some url ->
     Req.host req = Some (before +:+ url +:+ after) ->
     before +:+ url +:+ after <> EmptyString ->
     validateStoreRequest env req = inr true)
  /\ (forall (env : Env) (req : Req.t),
        NODE_ENV env = Some "development" ->
        Req.host req = None ->
        validateStoreRequest env req
        = inl (Res.mk 403 (failure "Forbidden" "Request not authorized from this store"))).
Proof.
  split.
  - intros env req url before after Hmode Hurl Hhost Hne.
    unfold validateStoreRequest.
    rewrite (development_gate env req Hmode), Hurl, Hhost.
    cbn [JS.to_string]. now rewrite includes_infix, (truthy_nonempty _ Hne).
  - intros env req Hmode Hhost.
    unfold validateStoreRequest.
    now rewrite (development_gate env req Hmode), Hhost.
Qed.

(** X4. With SHOPIFY_STORE_URL unset, outside development, the gate
    compares with the text "undefined": a request whose Origin is an http
    or https URL is answered 403 without any remote call. *)
Theorem unconfigured_gate_is_closed {W : Type} {remote : Remote W} (env : Env)
    (req : Req.t) (rest : string) (st : State W) :
  NODE_ENV env <> Some "development" ->
  SHOPIFY_STORE_URL env = None ->
  Req.Origin req = Some ("http" +:+ rest) ->
  wishlistRoutes env req st
  = (Return (Res.mk 403 (failure "Forbidden" "Request not authorized from this store")), st).
Proof.
  intros Hmode Hstore Horigin.
  unfold wishlistRoutes, validateStoreRequest.
  now rewrite (production_gate env req Hmode), Hstore, Horigin.
Qed.

Lemma gate_admits_extensions_of_store_url_witness :
  validateStoreRequest Demo.env
    (Demo.from (Some "https://wishes.example.attacker.test") None None)
  = inr true.
Proof.
  refine (gate_admits_extensions_of_store_url Demo.env
            (Demo.from (Some "https://wishes.example.attacker.test") None None)
            "https://wishes.example" ".attacker.test" _ eq_refl eq_refl _); discriminate.
Defined.

Lemma origin_shadows_referer_witness :
  wishlistRoutes Demo.env
    (Demo.from (Some "https://elsewhere.example")
               (Some "https://wishes.example/products/tee") None)
    (boot Demo.store)
  = (Return (Res.mk 403 (failure "Forbidden" "Request not authorized from this store")),
     boot Demo.store).
Proof.
  refine (origin_shadows_referer Demo.env
            (Demo.from (Some "https://elsewhere.example")
                       (Some "https://wishes.example/products/tee") None)
            "https://elsewhere.example" (boot Demo.store) _ eq_refl _ eq_refl);
    discriminate.
Defined.

Lemma development_gate_reads_host_only_witness :
  validateStoreRequest Demo.dev
    (Demo.from (Some "https://elsewhere.example") None (Some "localhost:3000"))
  = inr true
  /\ validateStoreRequest Demo.dev (Demo.from (Some "https://wishes.example") None None)
     = inl (Res.mk 403 (failure "Forbidden" "Request not authorized from this store")).
Proof.
  split.
  - refine (proj1 development_gate_reads_host_only Demo.dev
              (Demo.from (Some "https://elsewhere.example") None (Some "localhost:3000"))
              "localhost" EmptyString ":3000" eq_refl eq_refl eq_refl _); discriminate.
  - exact (proj2 development_gate_reads_host_only Demo.dev
             (Demo.from (Some "https://wishes.example") None None) eq_refl eq_refl).
Defined.

Lemma unconfigured_gate_is_closed_witness :
  wishlistRoutes Demo.unconfigured (Demo.get "123") (boot Demo.store)
  = (Return (Res.mk 403 (failure "Forbidden" "Request not authorized from this store")),
     boot Demo.store).
Proof.
  refine (unconfigured_gate_is_closed Demo.unconfigured (Demo.get "123")
            "s://wishes.example" (boot Demo.store) _ eq_refl eq_refl); discriminate.
Defined.

(** ** Validation, reads and lookups over any upstream service *)

Section MoreGeneric.

Context {W : Type} {remote : Remote W}.

(** X5. An authorized add or remove whose customerId or productId is
    missing or empty is answered 400, and an authorized read whose
    customerId is missing or empty likewise, before any remote call: the
    state is untouched. *)
Theorem missing_fields_are_rejected_before_any_call :
  (forall (env : Env) (req : Req.t) (st : State W),
     isValidOrigin env req = true ->
     Req.route req = POST_add \/ Req.route req = DELETE_remove ->
     JS.truthy (Req.body_customerId req) = false
     \/ JS.truthy (Req.body_productId req) = false ->
     wishlistRoutes env req st
     = (Return (Res.mk 400 (failure "Missing required fields"
                                    "customerId and productId are required")), st))
  /\ (forall (env : Env) (req : Req.t) (st : State W),
        isValidOrigin env req = true ->
        Req.route req = GET_root ->
        JS.truthy (Req.query_customerId req) = false ->
        wishlistRoutes env req st
        = (Return (Res.mk 400 (failure "Missing required parameter"
                                       "customerId is required")), st)).
Proof.
  split.
  - intros env req st Hgate [Hroute | Hroute] Hmissing.
    + rewrite (route_add env req Hgate Hroute). unfold post_add, try_catch.
      destruct Hmissing as [-> | ->]; cbn [negb orb]; [reflexivity |].
      now rewrite orb_true_r.
    + rewrite (route_remove env req Hgate Hroute). unfold delete_remove, try_catch.
      destruct Hmissing as [-> | ->]; cbn [negb orb]; [reflexivity |].
      now rewrite orb_true_r.
  - intros env req st Hgate Hroute Hmissing.
    rewrite (route_get env req Hgate Hroute). unfold get_root, try_catch.
    now rewrite Hmissing.
Qed.

(** X6. An authorized read answers 200 with the wishlist exactly as the
    metafield read returned it and with its length as count; the customer
    query is the only remote call, so a read never writes. *)
Theorem get_returns_the_read_verbatim (env : Env) (req : Req.t) (customerId : string)
    (w : Wishlist) (st st' : State W) :
  isValidOrigin env req = true ->
  Req.route req = GET_root ->
  Req.query_customerId req = Some customerId ->
  customerId <> EmptyString ->
  getCustomerMetafield customerId st = (Return w, st') ->
  wishlistRoutes env req st
  = (Return (Res.mk 200 (success None (listed customerId w (length w)))), st')
  /\ st' = after_axios (getCustomer (customerGid customerId)) st.
Proof.
  intros Hgate Hroute Hc Hcne Hread. split.
  - rewrite (route_get env req Hgate Hroute).
    unfold get_root, try_catch, bind.
    rewrite Hc, (truthy_nonempty _ Hcne). cbn [negb JS.to_string].
    now rewrite Hread.
  - pose proof (read_state customerId st) as Hst. now rewrite Hread in Hst.
Qed.

Lemma read_failed (customerId : string) (st : State W) :
  let q := getCustomer (customerGid customerId) in
  query_failed (fst (axios_post q (world st))) = true ->
  getCustomerMetafield customerId st
  = (if JS.includes (failure_message (fst (axios_post q (world st)))) "Customer not found"
     then Return []
     else Throw (failure_message (fst (axios_post q (world st)))),
     after_axios q st).
Proof.
  intros q Hfail.
  unfold getCustomerMetafield, try_catch, bind. fold q. rewrite graphql_run.
  destruct (fst (axios_post q (world st))) as [message | [errors|] data];
    cbn [failure_message]; try discriminate;
    unfold throw, ret; now destruct (JS.includes _ _).
Qed.

(** X7. When the customer query fails (the call is rejected or the
    response carries errors), the read rethrows the failure with its
    message, except that a message containing "Customer not found" makes
    it return the empty wishlist; either way the query is its only call. *)
Theorem read_failure_policy (customerId : string) (st : State W) :
  let q := getCustomer (customerGid customerId) in
  let message := failure_message (fst (axios_post q (world st))) in
  query_failed (fst (axios_post q (world st))) = true ->
  (JS.includes message "Customer not found" = true ->
   getCustomerMetafield customerId st = (Return [], after_axios q st))
  /\ (JS.includes message "Customer not found" = false ->
      getCustomerMetafield customerId st = (Throw message, after_axios q st)).
Proof.
  intros q message Hfail.
  pose proof (read_failed customerId st Hfail) as Hread.
  fold q in Hread. fold message in Hread.
  split; intros Hincl; now rewrite Hincl in Hread.
Qed.

(** X8. When the customer query fails with a message that does not
    contain "Customer not found", add, read and remove each answer 500
    with that message in the body, in every environment, and make no
    further remote call: nothing is looked up and nothing is written. *)
Theorem read_failure_is_a_500 (env : Env) (req : Req.t)
    (customerId productId : string) (st : State W) :
  let q := getCustomer (customerGid customerId) in
  let message := failure_message (fst (axios_post q (world st))) in
  isValidOrigin env req = true ->
  customerId <> EmptyString ->
  productId <> EmptyString ->
  query_failed (fst (axios_post q (world st))) = true ->
  JS.includes message "Customer not found" = false ->
  (Req.route req = POST_add ->
   Req.body_customerId req = Some customerId ->
   Req.body_productId req = Some productId ->
   wishlistRoutes env req st
   = (Return (Res.mk 500 (failure "Failed to add product to wishlist" message)),
      after_axios q st))
  /\ (Req.route req = GET_root ->
      Req.query_customerId req = Some customerId ->
      wishlistRoutes env req st
      = (Return (Res.mk 500 (failure "Failed to fetch wishlist" message)),
         after_axios q st))
  /\ (Req.route req = DELETE_remove ->
      Req.body_customerId req = Some customerId ->
      Req.body_productId req = Some productId ->
      wishlistRoutes env req st
      = (Return (Res.mk 500 (failure "Failed to remove product from wishlist" message)),
         after_axios q st)).
Proof.
  intros q message Hgate Hcne Hpne Hfail Hother.
  pose proof (read_failed customerId st Hfail) as Hread.
  fold q in Hread. fold message in Hread. rewrite Hother in Hread.
  split; [|split].
  - intros Hroute Hc Hp. rewrite (route_add env req Hgate Hroute).
    unfold post_add, try_catch, bind.
    rewrite Hc, Hp, (truthy_nonempty _ Hcne), (truthy_nonempty _ Hpne).
    cbn [negb orb JS.to_string]. now rewrite Hread.
  - intros Hroute Hc. rewrite (route_get env req Hgate Hroute).
    unfold get_root, try_catch, bind.
    rewrite Hc, (truthy_nonempty _ Hcne). cbn [negb JS.to_string]. now rewrite Hread.
  - intros Hroute Hc Hp. rewrite (route_remove env req Hgate Hroute).
    unfold delete_remove, try_catch, bind.
    rewrite Hc, Hp, (truthy_nonempty _ Hcne), (truthy_nonempty _ Hpne).
    cbn [negb orb JS.to_string]. now rewrite Hread.
Qed.

End MoreGeneric.

(** ** The product lookup on batches *)

Section Lookup.

Context {W : Type} {remote : Remote W}.

Lemma lookup_batch_run (productId : string) (productIds : list string) (st : State W) :
  let q := getProducts (map (String.append productPrefix) (productId :: productIds)) in
  getProductDetails (productId :: productIds) st
  = (Return match fst (axios_post q (world st)) with
            | AxiosResponse None (data_nodes nodes) =>
                match fst (map_nodes nodes (after_axios q st)) with
                | Return details => details
                | Throw _ => map degraded (productId :: productIds)
                end
            | _ => map degraded (productId :: productIds)
            end,
     after_axios q st).
Proof.
  intros q. unfold getProductDetails, try_catch, bind.
  change (getProducts (map _ (productId :: productIds))) with q.
  rewrite graphql_run.
  destruct (fst (axios_post q (world st))) as [message | [errors|] data]; try reflexivity.
  destruct data as [ | customer | nodes | errs]; try reflexivity.
  pose proof (map_nodes_state nodes (after_axios q st)) as Hst.
  destruct (map_nodes nodes (after_axios q st)) as [[details|message] st'];
    cbn [snd] in Hst; subst st'; reflexivity.
Qed.

(** X9. The lookup of an empty batch returns no details without any
    remote call. For a non-empty batch, when the product query fails, or
    succeeds with data on which the mapping raises (a null node anywhere
    in the list, or no list), every product of the batch gets the degraded
    details, in the order asked, even those whose node was fine. *)
Theorem lookup_degrades_the_whole_batch :
  (forall st : State W, getProductDetails [] st = (Return [], st))
  /\ (forall (productId : string) (productIds : list string) (st : State W),
        let q := getProducts (map (String.append productPrefix) (productId :: productIds)) in
        query_failed (fst (axios_post q (world st))) = true
        \/ (exists data, fst (axios_post q (world st)) = AxiosResponse None data
                         /\ mapping_raises data = true) ->
        getProductDetails (productId :: productIds) st
        = (Return (map degraded (productId :: productIds)), after_axios q st)).
Proof.
  split; [reflexivity |].
  intros productId productIds st q Hcase.
  rewrite lookup_batch_run. fold q.
  destruct Hcase as [Hfail | [data [Hreply Hraises]]].
  - now destruct (fst (axios_post q (world st))) as [message | [errors|] data].
  - rewrite Hreply. destruct data as [ | customer | nodes | errs]; try reflexivity.
    now destruct (map_nodes_unusable nodes (after_axios q st) Hraises) as [message ->].
Qed.

Lemma map_nodes_rows (rows : list (string * option string * option string)) (st : State W) :
  map_nodes (map node_of_row rows) st = (Return (map details_of_row rows), st).
Proof.
  induction rows as [|[[id handle] title] rows IH]; [reflexivity |].
  cbn [map map_nodes node_of_row details_of_row]. unfold bind.
  cbn [details_of_node Node.id Node.handle Node.title]. unfold ret at 1.
  rewrite IH. unfold ret.
  change "gid://shopify/Product/" with productPrefix.
  now rewrite replace_prefix.
Qed.

(** X10. When the product query succeeds and every node carries a
    qualified product id, the details returned are those of the nodes, in
    the order of the response, with the gid://shopify/Product/ prefix
    stripped from each id and handle and title passed through; they are
    not matched against the ids that were asked for. *)
Theorem lookup_strips_the_prefix (productId : string) (productIds : list string)
    (rows : list (string * option string * option string)) (st : State W) :
  let q := getProducts (map (String.append productPrefix) (productId :: productIds)) in
  fst (axios_post q (world st)) = AxiosResponse None (data_nodes (map node_of_row rows)) ->
  getProductDetails (productId :: productIds) st
  = (Return (map details_of_row rows), after_axios q st).
Proof.
  intros q Hreply. rewrite lookup_batch_run. fold q.
  now rewrite Hreply, map_nodes_rows.
Qed.

End Lookup.

(** ** The two write channels *)

Section Channels.

Context {W : Type} {remote : Remote W}.

(** The request the fallback sends after its read. *)
Lemma rest_run (customerId : string) (w : Wishlist) (st : State W) :
  let clean := JS.replace customerId customerPrefix EmptyString in
  let g := GET_metafields clean in
  let send := fun wr =>
    (write_outcome (fst (fetch wr (world (after_fetch g st)))),
     after_fetch wr (after_fetch g st)) in
  updateCustomerMetafieldREST customerId w st
  = match fst (fetch g (world st)) with
    | FetchReject message => (Throw message, after_fetch g st)
    | FetchResponse status _ body =>
        if ok status then
          match body with
          | not_json => (Throw "Unexpected token in JSON", after_fetch g st)
          | json (Some metafields) =>
              match find is_wishlist_metafield metafields with
              | Some mf => send (PUT_metafield clean (Metafield.id mf) (wishlistMetafield w))
              | None => send (POST_metafield clean (wishlistMetafield w))
              end
          | json None => send (POST_metafield clean (wishlistMetafield w))
          end
        else send (POST_metafield clean (wishlistMetafield w))
    end.
Proof.
  intros clean g send. unfold send, after_fetch, write_outcome.
  unfold updateCustomerMetafieldREST, try_catch, bind, await_fetch, throw, ret, response_json.
  change (JS.replace customerId "gid://shopify/Customer/" EmptyString) with clean.
  fold g.
  destruct (fetch g (world st)) as [[message | status text body] w1]; cbn; [reflexivity |].
  destruct (ok status); cbn.
  - destruct body as [|[metafields|]]; cbn; [reflexivity | |].
    + destruct (find is_wishlist_metafield metafields) as [mf|]; cbn;
        match goal with
        | |- context [fetch ?r w1] => destruct (fetch r w1) as [[?|s ? b] ?]; cbn
        end; try reflexivity; destruct (ok s); cbn; try reflexivity; now destruct b.
    + match goal with
      | |- context [fetch ?r w1] => destruct (fetch r w1) as [[?|s ? b] ?]; cbn
      end; try reflexivity; destruct (ok s); cbn; try reflexivity; now destruct b.
  - match goal with
    | |- context [fetch ?r w1] => destruct (fetch r w1) as [[?|s ? b] ?]; cbn
    end; try reflexivity; destruct (ok s); cbn; try reflexivity; now destruct b.
Qed.

(** X11. When the read of the REST fallback fails (the GET is rejected,
    or answers OK with a body that is not JSON), the fallback throws
    after that single call: neither PUT nor POST is sent. *)
Theorem rest_failed_read_writes_nothing (customerId : string) (w : Wishlist)
    (st : State W) :
  let g := GET_metafields (JS.replace customerId customerPrefix EmptyString) in
  (forall message,
     fst (fetch g (world st)) = FetchReject message ->
     updateCustomerMetafieldREST customerId w st = (Throw message, after_fetch g st))
  /\ (forall status text,
        fst (fetch g (world st)) = FetchResponse status text not_json ->
        ok status = true ->
        updateCustomerMetafieldREST customerId w st
        = (Throw "Unexpected token in JSON", after_fetch g st)).
Proof.
  intros g. split.
  - intros message Hget. rewrite rest_run. fold g. now rewrite Hget.
  - intros status text Hget Hok. rewrite rest_run. fold g. now rewrite Hget, Hok.
Qed.

(** X12. After its read, the REST fallback sends one write carrying the
    serialized wishlist: a PUT against the id of the first record with
    namespace custom and key wishlist_products when the read answered OK
    and lists one, a POST when the read was not OK, or lists no metafields,
    or none with that namespace and key. *)
Theorem rest_updates_or_creates (customerId : string) (w : Wishlist) (st : State W)
    (status : nat) (text : string) (metafields : option (list Metafield.t)) :
  let clean := JS.replace customerId customerPrefix EmptyString in
  fst (fetch (GET_metafields clean) (world st))
  = FetchResponse status text (json metafields) ->
  (forall l mf,
     ok status = true -> metafields = Some l ->
     find is_wishlist_metafield l = Some mf ->
     log (snd (updateCustomerMetafieldREST customerId w st))
     = log st ++ [fetch_call (GET_metafields clean);
                  fetch_call (PUT_metafield clean (Metafield.id mf) (wishlistMetafield w))])
  /\ (ok status = false \/ metafields = None
      \/ (exists l, metafields = Some l /\ find is_wishlist_metafield l = None) ->
      log (snd (updateCustomerMetafieldREST customerId w st))
      = log st ++ [fetch_call (GET_metafields clean);
                   fetch_call (POST_metafield clean (wishlistMetafield w))]).
Proof.
  intros clean Hget. split.
  - intros l mf Hok -> Hfind.
    exact (rest_updates_existing customerId w st status text l mf Hget Hok Hfind).
  - intros Hcase.
    exact (rest_creates_otherwise customerId w st status text metafields Hget Hcase).
Qed.

(** X13. Once its read has resolved (not OK, or OK with a JSON body), the
    outcome of the REST fallback is the outcome of its one write: it
    returns when the response is OK with a JSON body, throws the
    rejection when the call is rejected, and throws
    "REST API Error: <status> - <body text>" when the response is not OK. *)
Theorem rest_outcome_is_the_write_outcome (customerId : string) (w : Wishlist)
    (st : State W) (status : nat) (text : string) (body : RestBody) :
  let g := GET_metafields (JS.replace customerId customerPrefix EmptyString) in
  fst (fetch g (world st)) = FetchResponse status text body ->
  (ok status = true -> body <> not_json) ->
  exists wr,
    is_write (fetch_call wr) = true
    /\ updateCustomerMetafieldREST customerId w st
       = (write_outcome (fst (fetch wr (world (after_fetch g st)))),
          after_fetch wr (after_fetch g st)).
Proof.
  intros g Hget Hjson. rewrite rest_run. fold g. rewrite Hget.
  destruct (ok status).
  - destruct body as [|[metafields|]]; [now elim (Hjson eq_refl) | |].
    + destruct (find is_wishlist_metafield metafields) as [mf|]; eexists; split;
        try reflexivity; reflexivity.
    + eexists; split; try reflexivity; reflexivity.
  - eexists; split; try reflexivity; reflexivity.
Qed.

Lemma rest_calls (customerId : string) (w : Wishlist) (st : State W) :
  exists calls,
    log (snd (updateCustomerMetafieldREST customerId w st)) = log st ++ calls
    /\ forallb is_fetch calls = true
    /\ 1 <= length calls <= 2.
Proof.
  rewrite rest_run. cbv zeta.
  destruct (fst (fetch _ (world st))) as [message | status text body].
  - eexists. split; [reflexivity |]. split; [reflexivity | cbn; lia].
  - destruct (ok status); [destruct body as [|[metafields|]] |];
      try destruct (find is_wishlist_metafield metafields);
      cbn [snd after_fetch log];
      eexists; rewrite <- ?app_assoc; (split; [reflexivity |]);
      (split; [reflexivity | cbn; lia]).
Qed.

Lemma fallback_otherwise (customerId : string) (w : Wishlist) (st : State W) :
  let q := metafieldsSet (customerGid customerId) (wishlistMetafield w) in
  (forall errors,
     fst (axios_post q (world st)) <> AxiosResponse None (data_metafieldsSet errors)) ->
  updateCustomerMetafield customerId w st
  = updateCustomerMetafieldREST customerId w (after_axios q st).
Proof.
  intros q Hother. unfold updateCustomerMetafield, try_catch, bind. fold q.
  rewrite graphql_run.
  destruct (fst (axios_post q (world st))) as [message | [errors|] data]; cbn;
    try reflexivity.
  destruct data as [ | customer | nodes | errs]; cbn; try reflexivity.
  now elim (Hother errs).
Qed.

(** X14. The decision table of the write, by the answer to the
    [metafieldsSet] mutation: accepted without user errors, the write
    returns after that single call; with user errors, the REST fallback
    runs and, if it throws, runs once more; in every other case (call
    rejected, errors in the response, data null or of another shape) the
    write is the REST fallback run once, whose failure is the write's. *)
Theorem write_decision_table (customerId : string) (w : Wishlist) (st : State W) :
  let q := metafieldsSet (customerGid customerId) (wishlistMetafield w) in
  let reply := fst (axios_post q (world st)) in
  (reply = AxiosResponse None (data_metafieldsSet []) ->
   updateCustomerMetafield customerId w st = (Return tt, after_axios q st))
  /\ (forall e errors,
        reply = AxiosResponse None (data_metafieldsSet (e :: errors)) ->
        updateCustomerMetafield customerId w st
        = match updateCustomerMetafieldREST customerId w (after_axios q st) with
          | (Return u, st') => (Return u, st')
          | (Throw _, st') => updateCustomerMetafieldREST customerId w st'
          end)
  /\ ((forall errors, reply <> AxiosResponse None (data_metafieldsSet errors)) ->
      updateCustomerMetafield customerId w st
      = updateCustomerMetafieldREST customerId w (after_axios q st)).
Proof.
  intros q reply. split; [|split].
  - apply write_success.
  - intros e errors. apply fallback_on_user_errors.
  - apply fallback_otherwise.
Qed.

(** X15. A write sends the [metafieldsSet] mutation exactly once, first;
    every later call is a REST call, and there are at most four of them
    (two runs of the fallback, each a GET and at most one PUT or POST). *)
Theorem write_call_bound (customerId : string) (w : Wishlist) (st : State W) :
  exists calls,
    log (snd (updateCustomerMetafield customerId w st))
    = log st ++ axios_call (metafieldsSet (customerGid customerId) (wishlistMetafield w))
                :: calls
    /\ forallb is_fetch calls = true
    /\ length calls <= 4.
Proof.
  set (q := metafieldsSet (customerGid customerId) (wishlistMetafield w)).
  assert (Hrest : exists calls,
            log (snd (updateCustomerMetafieldREST customerId w (after_axios q st)))
            = log st ++ axios_call q :: calls
            /\ forallb is_fetch calls = true /\ length calls <= 2).
  { destruct (rest_calls customerId w (after_axios q st)) as [calls [-> [Hfetch Hlen]]].
    exists calls. cbn [after_axios log]. rewrite <- app_assoc. repeat split; [exact Hfetch | lia]. }
  unfold updateCustomerMetafield, try_catch, bind. fold q. rewrite graphql_run.
  assert (Hweak : exists calls,
            log (snd (updateCustomerMetafieldREST customerId w (after_axios q st)))
            = log st ++ axios_call q :: calls
            /\ forallb is_fetch calls = true /\ length calls <= 4).
  { destruct Hrest as [calls [Hlog [Hfetch Hlen]]]. exists calls. repeat split; [exact Hlog | exact Hfetch | lia]. }
  destruct (fst (axios_post q (world st))) as [message | [errors|] data]; cbn;
    try exact Hweak.
  destruct data as [ | customer | nodes | [|e errs]]; cbn; try exact Hweak.
  - exists []. repeat split. cbn. lia.
  - destruct (updateCustomerMetafieldREST customerId w (after_axios q st))
      as [[u|m] st1] eqn:Hfirst; [exact Hweak |].
    destruct Hrest as [calls [Hlog [Hfetch Hlen]]]. cbn [snd] in Hlog.
    destruct (rest_calls customerId w st1) as [calls' [-> [Hfetch' Hlen']]].
    exists (calls ++ calls'). rewrite Hlog, <- app_assoc. cbn [app].
    split; [reflexivity |]. split.
    + rewrite forallb_app, Hfetch, Hfetch'. reflexivity.
    + rewrite length_app. lia.
Qed.

(** X16. [setWishlistMetafield] is the mutation alone: whatever the
    answer, it makes that single call and never uses the REST channel. It
    returns when the mutation is accepted without user errors, throws
    "GraphQL Error: " followed by the first user error's message when
    there are user errors, and rethrows the failure of a failed call. *)
Theorem set_wishlist_never_falls_back (customerId : string) (w : Wishlist)
    (st : State W) :
  let q := metafieldsSet (customerGid customerId) (wishlistMetafield w) in
  let reply := fst (axios_post q (world st)) in
  snd (setWishlistMetafield customerId w st) = after_axios q st
  /\ (reply = AxiosResponse None (data_metafieldsSet []) ->
      fst (setWishlistMetafield customerId w st) = Return tt)
  /\ (forall e errors,
        reply = AxiosResponse None (data_metafieldsSet (e :: errors)) ->
        fst (setWishlistMetafield customerId w st) = Throw ("GraphQL Error: " +:+ e))
  /\ (query_failed reply = true ->
      fst (setWishlistMetafield customerId w st) = Throw (failure_message reply)).
Proof.
  intros q reply.
  unfold setWishlistMetafield, try_catch, bind. fold q. rewrite graphql_run. fold reply.
  split; [|split; [|split]].
  - destruct reply as [message | [errors|] data]; cbn; try reflexivity.
    now destruct data as [ | customer | nodes | [|e errs]].
  - now intros ->.
  - now intros e errors ->.
  - destruct reply as [message | [errors|] data]; cbn; try reflexivity; discriminate.
Qed.

End Channels.

(** ** Failures of the write, and the two forms of a customer id *)

Section WriteFailure.

Context {W : Type} {remote : Remote W}.

(** X17. When the write-back throws (both channels have failed), add and
    remove answer 500 with the message of the last failure in the body;
    nothing of the request is undone or retried by the handler. *)
Theorem write_failure_is_a_500 (env : Env) (req : Req.t)
    (customerId productId message : string) (w : Wishlist) (st st1 : State W) :
  isValidOrigin env req = true ->
  Req.body_customerId req = Some customerId ->
  Req.body_productId req = Some productId ->
  customerId <> EmptyString ->
  productId <> EmptyString ->
  getCustomerMetafield customerId st = (Return w, st1) ->
  (Req.route req = POST_add ->
   forall details st2 st3,
     (forall product, In product w -> Product.id product <> Some productId) ->
     getProductDetails [productId] st1 = (Return details, st2) ->
     updateCustomerMetafield customerId
       (w ++ [newProduct (head details) (toISOString (world st2)) "shopify-store"]) st2
     = (Throw message, st3) ->
     wishlistRoutes env req st
     = (Return (Res.mk 500 (failure "Failed to add product to wishlist" message)), st3))
  /\ (Req.route req = DELETE_remove ->
      forall product st3,
        In product w -> Product.id product = Some productId ->
        updateCustomerMetafield customerId
          (List.filter (fun product => negb (has_id productId product)) w) st1
        = (Throw message, st3) ->
        wishlistRoutes env req st
        = (Return (Res.mk 500 (failure "Failed to remove product from wishlist" message)),
           st3)).
Proof.
  intros Hgate Hc Hp Hcne Hpne Hread. split.
  - intros Hroute details st2 st3 Hno Hlookup Hwrite.
    rewrite (route_add env req Hgate Hroute).
    unfold post_add, try_catch, bind.
    rewrite Hc, Hp, (truthy_nonempty _ Hcne), (truthy_nonempty _ Hpne).
    cbn [negb orb JS.to_string].
    rewrite Hread, (find_has_id_none productId w Hno), Hlookup.
    unfold now. now rewrite Hwrite.
  - intros Hroute product st3 Hin Hid Hwrite.
    rewrite (route_remove env req Hgate Hroute).
    unfold delete_remove, try_catch, bind.
    rewrite Hc, Hp, (truthy_nonempty _ Hcne), (truthy_nonempty _ Hpne).
    cbn [negb orb JS.to_string]. rewrite Hread.
    pose proof (filter_present productId w product Hin (proj2 (has_id_iff _ _) Hid)) as Hlt.
    destruct (Nat.eqb_spec
      (length (List.filter (fun product => negb (has_id productId product)) w))
      (length w)) as [Heq | _]; [lia |].
    now rewrite Hwrite.
Qed.

End WriteFailure.

(** X25. Normalizing a customer id twice is normalizing it once, and the
    id the REST fallback derives from a normalized id is the bare id: the
    id given when it was bare, and the remainder after the prefix when it
    was gid://shopify/Customer/ followed by that remainder. *)
Theorem customer_id_round_trip (customerId : string) :
  customerGid (customerGid customerId) = customerGid customerId
  /\ (JS.startsWith customerId "gid://" = false ->
      JS.replace (customerGid customerId) customerPrefix EmptyString = customerId)
  /\ JS.replace (customerGid (customerPrefix +:+ customerId)) customerPrefix EmptyString
     = customerId.
Proof.
  split; [|split].
  - destruct (JS.startsWith customerId "gid://") eqn:Hq.
    + now rewrite !(gid_of_qualified customerId Hq).
    + rewrite (gid_of_bare customerId Hq).
      apply gid_of_qualified, prefixed_is_qualified.
  - intros Hbare. rewrite (gid_of_bare customerId Hbare). apply replace_prefix.
  - rewrite (gid_of_qualified _ (prefixed_is_qualified customerId)). apply replace_prefix.
Qed.

(** ** The router over the in-memory store, for every request *)

Section ShopInvariants.

Implicit Types (shop : Shop.t) (st : State Shop.t).

Lemma stored_after_set_value (c c' : string) (w : Wishlist) shop :
  Shop.stored (Shop.set_value c (WishlistText w) shop) c'
  = if decide (c = c' /\ is_Some (Shop.customers shop !! c)) then w
    else Shop.stored shop c'.
Proof.
  unfold Shop.stored, Shop.set_value.
  destruct (Shop.customers shop !! c) as [m|] eqn:Hc.
  - assert (Hknown : is_Some (Some m)) by eauto.
    destruct (decide (c = c')) as [<- | Hne].
    + rewrite decide_True by (split; [reflexivity | exact Hknown]).
      destruct m as [[i v]|]; cbn [Shop.customers]; now rewrite lookup_insert_eq.
    + rewrite decide_False by tauto.
      destruct m as [[i v]|]; cbn [Shop.customers]; now rewrite lookup_insert_ne.
  - rewrite decide_False; [reflexivity |]. intros [_ [x Hx]]. discriminate.
Qed.

(** On the store a read changes nothing and returns the empty wishlist or
    a stored one. *)
Lemma shop_read_any (customerId : string) st :
  exists w,
    getCustomerMetafield customerId st
    = (Return w, mkState (world st)
                         (log st ++ [axios_call (getCustomer (customerGid customerId))]))
    /\ (w = [] \/ exists c, w = Shop.stored (world st) c).
Proof.
  unfold getCustomerMetafield, try_catch, bind. rewrite graphql_run.
  unfold after_axios. cbn [axios_post shop Shop.axios_post fst snd].
  unfold Shop.customer_of.
  destruct (Shop.strip customerPrefix (customerGid customerId)) as [c|]; cbn.
  - destruct (Shop.customers (world st) !! c) as [m|] eqn:Hc; cbn.
    + exists (Shop.stored (world st) c). split; [| right; now exists c].
      unfold Shop.stored. rewrite Hc.
      destruct m as [[i [products | raw]]|]; reflexivity.
    + rewrite not_found_is_caught. exists []. split; [reflexivity | now left].
  - rewrite not_found_is_caught. exists []. split; [reflexivity | now left].
Qed.

(** The REST fallback on the store: it throws and changes nothing, or it
    returns having set the wishlist of the customer of its URL. *)
Lemma shop_rest_world (customerId : string) (w : Wishlist) st :
  let c := JS.replace customerId customerPrefix EmptyString in
  (exists message st',
     updateCustomerMetafieldREST customerId w st = (Throw message, st')
     /\ world st' = world st)
  \/ (exists st',
        updateCustomerMetafieldREST customerId w st = (Return tt, st')
        /\ world st' = Shop.set_value c (WishlistText w) (world st)).
Proof.
  intros c. rewrite rest_run. fold c. cbv zeta.
  unfold after_fetch. cbn [fetch shop Shop.fetch world log].
  destruct (Shop.customers (world st) !! c) as [[[i v]|]|] eqn:Hc; cbn; rewrite Hc; cbn.
  - rewrite Pos.eqb_refl. cbn. right. eauto.
  - right. eauto.
  - left. eauto.
Qed.

(** The mutation on the store: accepted for a known owner, whose
    wishlist it sets, or not accepted, and then nothing has changed. *)
Lemma shop_mutation (customerId : string) (w : Wishlist) st :
  let q := metafieldsSet (customerGid customerId) (wishlistMetafield w) in
  let reply := fst (axios_post q (world st)) in
  (exists c,
     Shop.strip customerPrefix (customerGid customerId) = Some c
     /\ reply = AxiosResponse None (data_metafieldsSet [])
     /\ world (after_axios q st) = Shop.set_value c (WishlistText w) (world st))
  \/ (world (after_axios q st) = world st
      /\ (query_failed reply = true
          \/ exists e errors, reply = AxiosResponse None (data_metafieldsSet (e :: errors)))).
Proof.
  intros q reply. unfold reply, after_axios, q.
  cbn [axios_post shop Shop.axios_post world].
  destruct (Shop.primary (world st)); cbn [fst snd].
  - destruct (Shop.strip customerPrefix (customerGid customerId)) as [c|]; cbn [fst snd].
    + destruct (Shop.customers (world st) !! c); cbn [fst snd].
      * left. exists c. repeat split.
      * right. split; [reflexivity |]. right. eauto.
    + right. split; [reflexivity |]. right. eauto.
  - right. split; [reflexivity |]. right. eauto.
  - right. split; [reflexivity |]. now left.
Qed.

(** A write on the store changes nothing, or sets the wishlist of the
    customer its mutation or its REST URL names to the list written. *)
Lemma shop_write_world (customerId : string) (w : Wishlist) st :
  let after := world (snd (updateCustomerMetafield customerId w st)) in
  after = world st
  \/ (exists c, Shop.strip customerPrefix (customerGid customerId) = Some c
                /\ after = Shop.set_value c (WishlistText w) (world st))
  \/ after = Shop.set_value (JS.replace customerId customerPrefix EmptyString)
                            (WishlistText w) (world st).
Proof.
  intros after. unfold after. clear after.
  set (q := metafieldsSet (customerGid customerId) (wishlistMetafield w)).
  destruct (shop_mutation customerId w st)
    as [[c [Hstrip [Hreply Hworld]]] | [Hworld [Hfail | [e [errors Hreply]]]]];
    fold q in Hreply || fold q in Hfail; fold q in Hworld.
  - rewrite (write_success customerId w st Hreply). cbn [snd]. fold q.
    right. left. exists c. now split.
  - rewrite (fallback_on_failure customerId w st Hfail). fold q.
    destruct (shop_rest_world customerId w (after_axios q st))
      as [[message [st' [-> Hst']]] | [st' [-> Hst']]]; cbn [snd]; rewrite Hst', Hworld.
    + now left.
    + now right; right.
  - rewrite (fallback_on_user_errors customerId w st e errors Hreply). fold q.
    destruct (shop_rest_world customerId w (after_axios q st))
      as [[message [st1 [-> Hst1]]] | [st1 [-> Hst1]]].
    + destruct (shop_rest_world customerId w st1)
        as [[message' [st2 [-> Hst2]]] | [st2 [-> Hst2]]];
        cbn [snd]; rewrite Hst2, Hst1, Hworld.
      * now left.
      * now right; right.
    + cbn [snd]. rewrite Hst1, Hworld. now right; right.
Qed.

End ShopInvariants.

Section ShopRequests.

Implicit Types (shop : Shop.t) (st : State Shop.t).

(** What a request can do to the store: nothing, or set one customer's
    wishlist to the list read, plus one entry with a fresh id or minus the
    entries of one id. *)
Lemma shop_request_world (env : Env) (req : Req.t) st :
  let after := world (snd (wishlistRoutes env req st)) in
  let customerId := JS.to_string (Req.body_customerId req) in
  let productId := JS.to_string (Req.body_productId req) in
  after = world st
  \/ exists c r w,
       after = Shop.set_value c (WishlistText w) (world st)
       /\ (Shop.strip customerPrefix (customerGid customerId) = Some c
           \/ c = JS.replace customerId customerPrefix EmptyString)
       /\ (r = [] \/ exists c0, r = Shop.stored (world st) c0)
       /\ ((Req.route req = POST_add /\ find (has_id productId) r = None
            /\ exists entry, Product.id entry = Some productId /\ w = r ++ [entry])
           \/ (Req.route req = DELETE_remove
               /\ w = List.filter (fun product => negb (has_id productId product)) r)).
Proof.
  intros after customerId productId. unfold after. clear after.
  unfold wishlistRoutes.
  destruct (validateStoreRequest env req) as [res | isValidated]; [now left |].
  destruct (Req.route req) eqn:Hroute; [ | | | now left].
  - (* add *)
    unfold post_add, try_catch, bind.
    destruct isValidated; cbn [negb]; [| now left].
    destruct (negb (JS.truthy (Req.body_customerId req))
              || negb (JS.truthy (Req.body_productId req))); [now left |].
    fold customerId. fold productId.
    destruct (shop_read_any customerId st) as [r [-> Hr]].
    destruct (find (has_id productId) r) as [existing|] eqn:Hfind; [now left |].
    rewrite shop_lookup. unfold now. cbn [world log head toISOString shop].
    set (entry := newProduct (Some (shop_details (world st) productId))
                             (Shop.clock (world st)) "shopify-store").
    match goal with
    | |- context [updateCustomerMetafield customerId (r ++ [entry]) ?s] =>
        pose proof (shop_write_world customerId (r ++ [entry]) s) as Hwrite;
        destruct (updateCustomerMetafield customerId (r ++ [entry]) s) as [[u|m] st3]
    end; cbn [snd world] in Hwrite; cbv beta iota; cbn [snd world ret].
    all: destruct Hwrite as [-> | [[c [Hstrip ->]] | ->]]; [now left | right | right].
    all: eexists _, r, (r ++ [entry]); (split; [reflexivity |]); (split; [eauto |]);
      (split; [exact Hr |]); left; (split; [reflexivity |]); (split; [exact Hfind |]);
      exists entry; (split; [| reflexivity]);
      unfold entry; cbn; now rewrite shop_details_id.
  - (* get *)
    unfold get_root, try_catch, bind.
    destruct isValidated; cbn [negb]; [| now left].
    destruct (negb (JS.truthy (Req.query_customerId req))); [now left |].
    destruct (shop_read_any (JS.to_string (Req.query_customerId req)) st) as [r [-> Hr]].
    now left.
  - (* remove *)
    unfold delete_remove, try_catch, bind.
    destruct (negb (JS.truthy (Req.body_customerId req))
              || negb (JS.truthy (Req.body_productId req))); [now left |].
    fold customerId. fold productId.
    destruct (shop_read_any customerId st) as [r [-> Hr]].
    set (w := List.filter (fun product => negb (has_id productId product)) r).
    destruct (length w =? length r); [now left |].
    match goal with
    | |- context [updateCustomerMetafield customerId w ?s] =>
        pose proof (shop_write_world customerId w s) as Hwrite;
        destruct (updateCustomerMetafield customerId w s) as [[u|m] st3]
    end; cbn [snd world] in Hwrite; cbv beta iota; cbn [snd world ret].
    all: destruct Hwrite as [-> | [[c [Hstrip ->]] | ->]]; [now left | right | right].
    all: eexists _, r, w; (split; [reflexivity |]); (split; [eauto |]);
      (split; [exact Hr |]); right; now split.
Qed.

End ShopRequests.

Lemma unique_append (productId : string) (r : Wishlist) (entry : Product.t) :
  unique_ids r -> find (has_id productId) r = None ->
  Product.id entry = Some productId ->
  unique_ids (r ++ [entry]).
Proof.
  unfold unique_ids. intros Hr Hfind Hid.
  assert (Hfresh : ~ In (Some productId) (map Product.id r)).
  { intros Hin. apply in_map_iff in Hin as [x [Hx Hin]].
    pose proof (find_none _ _ Hfind x Hin) as Hno.
    apply (proj2 (has_id_iff productId x)) in Hx. congruence. }
  rewrite map_app. cbn [map]. rewrite Hid. clear Hfind Hid.
  induction (map Product.id r) as [|i ids IH]; cbn [app].
  - apply List.NoDup_cons; [intros [] | apply List.NoDup_nil].
  - inversion Hr as [|? ? Hi Hids]; subst.
    apply List.NoDup_cons.
    + rewrite in_app_iff. intros [Hin | [<- | []]]; [now apply Hi |].
      apply Hfresh. now left.
    + apply IH; [exact Hids |]. intros Hin. apply Hfresh. now right.
Qed.

Lemma unique_filter (f : Product.t -> bool) (r : Wishlist) :
  unique_ids r -> unique_ids (List.filter f r).
Proof.
  unfold unique_ids. induction r as [|x r IH]; intros Hr; [exact Hr |].
  cbn [List.filter map] in *. inversion Hr as [|? ? Hx Hrest]; subst.
  destruct (f x); [| now apply IH].
  cbn [map]. apply List.NoDup_cons; [| now apply IH].
  intros Hin. apply Hx. apply in_map_iff in Hin as [y [Hy Hin]].
  apply filter_In in Hin as [Hin _]. apply in_map_iff. now exists y.
Qed.

Lemma find_none_ids (productId : string) (w : Wishlist) :
  find (has_id productId) w = None ->
  forall product, In product w -> Product.id product <> Some productId.
Proof.
  intros Hfind product Hin Hid.
  pose proof (find_none _ _ Hfind product Hin) as Hno.
  apply (proj2 (has_id_iff productId product)) in Hid. congruence.
Qed.

Section ShopProperties.

Implicit Types (shop : Shop.t) (st : State Shop.t).

(** X19. On the store, whatever the request (any route, any headers, any
    body, any mode of the channels): if no customer's stored wishlist
    holds two entries with the same id before the request, none does
    after it. *)
Theorem requests_keep_ids_unique (env : Env) (req : Req.t) st :
  (forall c, unique_ids (Shop.stored (world st) c)) ->
  forall c, unique_ids (Shop.stored (world (snd (wishlistRoutes env req st))) c).
Proof.
  intros Hinv c.
  destruct (shop_request_world env req st)
    as [-> | [c1 [r [w [-> [_ [Hr Hw]]]]]]]; [apply Hinv |].
  rewrite stored_after_set_value. case_decide; [| apply Hinv].
  assert (Hunique : unique_ids r).
  { destruct Hr as [-> | [c0 ->]]; [apply List.NoDup_nil | apply Hinv]. }
  destruct Hw as [[_ [Hfind [entry [Hid ->]]]] | [_ ->]].
  - exact (unique_append _ r entry Hunique Hfind Hid).
  - now apply unique_filter.
Qed.

(** X23. On the store only add and remove write: a request on any other
    route leaves the wishlist of every customer as it is. *)
Theorem only_add_and_remove_change_the_store (env : Env) (req : Req.t) st :
  Req.route req <> POST_add ->
  Req.route req <> DELETE_remove ->
  world (snd (wishlistRoutes env req st)) = world st.
Proof.
  intros Hadd Hremove.
  destruct (shop_request_world env req st)
    as [H | [c1 [r [w [_ [_ [_ [[Hroute _] | [Hroute _]]]]]]]]]; [exact H | |];
    contradiction.
Qed.

(** X24. On the store a request made for one customer, under a bare or
    qualified id, leaves the stored wishlist of every other customer as it
    is, whatever the route, the product and the outcome. *)
Theorem requests_touch_one_customer (env : Env) (req : Req.t)
    (customerId c other : string) st :
  Req.body_customerId req = Some customerId ->
  refers_to customerId c ->
  other <> c ->
  Shop.stored (world (snd (wishlistRoutes env req st))) other
  = Shop.stored (world st) other.
Proof.
  intros Hc [Hgid Hclean] Hother.
  destruct (shop_request_world env req st)
    as [-> | [c1 [r [w [-> [Hwho _]]]]]]; [reflexivity |].
  rewrite Hc in Hwho. cbn [JS.to_string] in Hwho.
  rewrite Hgid, strip_append, Hclean in Hwho.
  assert (c1 = c) as -> by (destruct Hwho as [[= ->] | ->]; reflexivity).
  rewrite stored_after_set_value. rewrite decide_False; [reflexivity |].
  intros [Heq _]. now apply Hother.
Qed.

(** X18. On the store, in every mode of the primary channel, what a write
    stores for a known customer is what the next read returns. *)
Theorem write_then_read (customerId c : string) (w : Wishlist) st
    (m : option (positive * JsonText)) :
  refers_to customerId c ->
  Shop.customers (world st) !! c = Some m ->
  exists st1 st2,
    updateCustomerMetafield customerId w st = (Return tt, st1)
    /\ getCustomerMetafield customerId st1 = (Return w, st2)
    /\ world st2 = world st1.
Proof.
  intros Hrefers Hm.
  destruct (shop_write customerId c w st m Hrefers Hm) as [calls Hwrite].
  destruct (stored_set_value c w (world st) m Hm) as [Hstored [m' Hm']].
  set (st1 := mkState (Shop.set_value c (WishlistText w) (world st)) (log st ++ calls)) in *.
  exists st1, (mkState (world st1)
                 (log st1 ++ [axios_call (getCustomer (customerGid customerId))])).
  split; [exact Hwrite |].
  rewrite (shop_read customerId c st1 m' Hrefers Hm'). cbn [st1 world].
  rewrite Hstored. split; reflexivity.
Qed.

(** X22. On the store, a successful add keeps the entries already
    stored, in their order, and puts the new entry last: its id is the
    product id given, its handle and title are the catalogue's (or the
    degraded ones), its timestamp is the clock's and its tag is
    shopify-store; the count in the response is the length of the
    wishlist now stored. *)
Theorem add_appends_at_the_end (env : Env) (req : Req.t)
    (customerId c productId : string) st (m : option (positive * JsonText)) :
  isValidOrigin env req = true ->
  Req.route req = POST_add ->
  Req.body_customerId req = Some customerId ->
  Req.body_productId req = Some productId ->
  customerId <> EmptyString ->
  productId <> EmptyString ->
  refers_to customerId c ->
  Shop.customers (world st) !! c = Some m ->
  (forall product, In product (Shop.stored (world st) c) ->
                   Product.id product <> Some productId) ->
  let details := shop_details (world st) productId in
  let entry := Product.mk (Some productId) (Details.handle details) (Details.title details)
                          (Shop.clock (world st)) "shopify-store" in
  exists st1,
    wishlistRoutes env req st
    = (Return (Res.mk 201 (success (Some "Product added to wishlist successfully")
                 (added customerId entry (length (Shop.stored (world st1) c))))), st1)
    /\ Shop.stored (world st1) c = Shop.stored (world st) c ++ [entry].
Proof.
  intros Hgate Hroute Hc Hp Hcne Hpne Hrefers Hm Hno details entry.
  destruct (shop_add env req customerId c productId st m) as [calls Hadd]; try assumption.
  destruct (stored_set_value c (Shop.stored (world st) c ++ [entry]) (world st) m Hm)
    as [Hstored _].
  cbn [newProduct] in Hadd. rewrite shop_details_id in Hadd.
  fold details in Hadd. fold entry in Hadd.
  exists (mkState (Shop.set_value c (WishlistText (Shop.stored (world st) c ++ [entry]))
                                  (world st))
                  (log st ++ calls)).
  rewrite Hadd. cbn [world]. rewrite Hstored. split; reflexivity.
Qed.

(** X21. On the store, a remove of an id that is in the wishlist answers
    200 and stores the wishlist without the entries of that id, all of
    them, the others kept in their order; the same remove once more
    answers 404 and changes nothing. *)
Theorem remove_is_complete (env : Env) (req : Req.t)
    (customerId c productId : string) st (m : option (positive * JsonText))
    (product : Product.t) :
  isValidOrigin env req = true ->
  Req.route req = DELETE_remove ->
  Req.body_customerId req = Some customerId ->
  Req.body_productId req = Some productId ->
  customerId <> EmptyString ->
  productId <> EmptyString ->
  refers_to customerId c ->
  Shop.customers (world st) !! c = Some m ->
  In product (Shop.stored (world st) c) ->
  Product.id product = Some productId ->
  exists res1 st1 res2 st2,
    wishlistRoutes env req st = (Return res1, st1) /\ Res.status res1 = 200
    /\ Shop.stored (world st1) c
       = List.filter (fun product => negb (has_id productId product))
                     (Shop.stored (world st) c)
    /\ wishlistRoutes env req st1 = (Return res2, st2) /\ Res.status res2 = 404
    /\ world st2 = world st1.
Proof.
  intros Hgate Hroute Hc Hp Hcne Hpne Hrefers Hm Hin Hid.
  destruct (shop_remove env req customerId c productId st m product)
    as [calls Hremove]; try assumption.
  set (w := List.filter (fun product => negb (has_id productId product))
                        (Shop.stored (world st) c)) in *.
  destruct (stored_set_value c w (world st) m Hm) as [Hstored [m' Hm']].
  set (st1 := mkState (Shop.set_value c (WishlistText w) (world st)) (log st ++ calls)) in *.
  assert (Hgone : forall product, In product w -> Product.id product <> Some productId).
  { intros x Hx Hxid. apply filter_In in Hx as [_ Hx].
    apply (proj2 (has_id_iff productId x)) in Hxid. now rewrite Hxid in Hx. }
  destruct (remove_absent env req customerId productId w st1
              (mkState (world st1)
                 (log st1 ++ [axios_call (getCustomer (customerGid customerId))])))
    as [Hsecond _]; try assumption.
  { rewrite (shop_read customerId c st1 m' Hrefers Hm'). cbn [st1 world]. now rewrite Hstored. }
  eexists _, st1, _, _.
  split; [exact Hremove |]. split; [reflexivity |].
  split; [exact Hstored |].
  split; [exact Hsecond |]. split; reflexivity.
Qed.

Lemma stored_with_primary (mode : Shop.Primary) shop (c : string) :
  Shop.stored (with_primary mode shop) c = Shop.stored shop c.
Proof. reflexivity. Qed.

Lemma details_with_primary (mode : Shop.Primary) shop (p : string) :
  shop_details (with_primary mode shop) p = shop_details shop p.
Proof. reflexivity. Qed.

Lemma stored_set_with_primary (mode : Shop.Primary) shop (c c' : string) (w : Wishlist) :
  Shop.stored (Shop.set_value c (WishlistText w) (with_primary mode shop)) c'
  = Shop.stored (Shop.set_value c (WishlistText w) shop) c'.
Proof. now rewrite !stored_after_set_value. Qed.

(** The response to an add or a remove for a known customer, and the
    wishlists stored after it, whatever the mode of the primary channel. *)
Lemma shop_outcome (env : Env) (req : Req.t) (customerId c productId : string) shop
    (calls : list Call) (m : option (positive * JsonText)) :
  isValidOrigin env req = true ->
  Req.route req = POST_add \/ Req.route req = DELETE_remove ->
  Req.body_customerId req = Some customerId ->
  Req.body_productId req = Some productId ->
  customerId <> EmptyString ->
  productId <> EmptyString ->
  refers_to customerId c ->
  Shop.customers shop !! c = Some m ->
  exists res (after : string -> Wishlist),
    forall mode,
      fst (wishlistRoutes env req (mkState (with_primary mode shop) calls)) = Return res
      /\ forall c',
           Shop.stored
             (world (snd (wishlistRoutes env req (mkState (with_primary mode shop) calls)))) c'
           = after c'.
Proof.
  intros Hgate Hroute Hc Hp Hcne Hpne Hrefers Hm.
  destruct (find (has_id productId) (Shop.stored shop c)) as [existing|] eqn:Hfind.
  - apply find_some in Hfind as [Hin Hid]. apply has_id_iff in Hid.
    destruct Hroute as [Hroute | Hroute].
    + eexists _, (Shop.stored shop). intros mode.
      destruct (add_conflict env req customerId productId (Shop.stored shop c) existing
                  (mkState (with_primary mode shop) calls)
                  (mkState (with_primary mode shop)
                     (calls ++ [axios_call (getCustomer (customerGid customerId))])))
        as [Hres _]; try assumption.
      { now rewrite (shop_read customerId c (mkState (with_primary mode shop) calls)
                       m Hrefers Hm). }
      rewrite Hres. split; reflexivity.
    + set (w := List.filter (fun product => negb (has_id productId product))
                            (Shop.stored shop c)).
      eexists _, (Shop.stored (Shop.set_value c (WishlistText w) shop)). intros mode.
      destruct (shop_remove env req customerId c productId
                  (mkState (with_primary mode shop) calls) m existing)
        as [calls' Hres]; try assumption.
      cbn [world log] in Hres. rewrite stored_with_primary in Hres. fold w in Hres.
      rewrite Hres. cbn [fst snd world]. split; [reflexivity |].
      intros c'. apply stored_set_with_primary.
  - pose proof (find_none_ids productId _ Hfind) as Hno.
    destruct Hroute as [Hroute | Hroute].
    + set (entry := newProduct (Some (shop_details shop productId))
                               (Shop.clock shop) "shopify-store").
      set (w := Shop.stored shop c ++ [entry]).
      eexists _, (Shop.stored (Shop.set_value c (WishlistText w) shop)). intros mode.
      destruct (shop_add env req customerId c productId
                  (mkState (with_primary mode shop) calls) m)
        as [calls' Hres]; try assumption.
      cbn [world log] in Hres.
      rewrite stored_with_primary, details_with_primary in Hres.
      change (Shop.clock (with_primary mode shop)) with (Shop.clock shop) in Hres.
      fold entry in Hres. fold w in Hres.
      rewrite Hres. cbn [fst snd world]. split; [reflexivity |].
      intros c'. apply stored_set_with_primary.
    + eexists _, (Shop.stored shop). intros mode.
      destruct (remove_absent env req customerId productId (Shop.stored shop c)
                  (mkState (with_primary mode shop) calls)
                  (mkState (with_primary mode shop)
                     (calls ++ [axios_call (getCustomer (customerGid customerId))])))
        as [Hres _]; try assumption.
      { now rewrite (shop_read customerId c (mkState (with_primary mode shop) calls)
                       m Hrefers Hm). }
      rewrite Hres. split; reflexivity.
Qed.

(** X20. On the store the channel that carries a write does not show:
    for a known customer, an add or a remove gets the same response, and
    leaves the same wishlists stored, whether the primary channel accepts
    the mutation, returns user errors or is unavailable. *)
Theorem channel_choice_is_invisible (env : Env) (req : Req.t)
    (customerId c productId : string) shop (calls : list Call)
    (m : option (positive * JsonText)) (mode1 mode2 : Shop.Primary) :
  isValidOrigin env req = true ->
  Req.route req = POST_add \/ Req.route req = DELETE_remove ->
  Req.body_customerId req = Some customerId ->
  Req.body_productId req = Some productId ->
  customerId <> EmptyString ->
  productId <> EmptyString ->
  refers_to customerId c ->
  Shop.customers shop !! c = Some m ->
  let run := fun mode => wishlistRoutes env req (mkState (with_primary mode shop) calls) in
  fst (run mode1) = fst (run mode2)
  /\ forall c', Shop.stored (world (snd (run mode1))) c'
                = Shop.stored (world (snd (run mode2))) c'.
Proof.
  intros Hgate Hroute Hc Hp Hcne Hpne Hrefers Hm run.
  destruct (shop_outcome env req customerId c productId shop calls m)
    as [res [after Hrun]]; try assumption.
  destruct (Hrun mode1) as [Hres1 Hafter1]. destruct (Hrun mode2) as [Hres2 Hafter2].
  unfold run. split.
  - now rewrite Hres1, Hres2.
  - intros c'. now rewrite Hafter1, Hafter2.
Qed.

End ShopProperties.

(** ** The further properties at sample inputs *)

Lemma missing_fields_are_rejected_before_any_call_witness :
  wishlistRoutes Demo.env (Demo.add "123" EmptyString) (boot Demo.store)
  = (Return (Res.mk 400 (failure "Missing required fields"
                                 "customerId and productId are required")),
     boot Demo.store)
  /\ wishlistRoutes Demo.env (Demo.get EmptyString) (boot Demo.store)
     = (Return (Res.mk 400 (failure "Missing required parameter" "customerId is required")),
        boot Demo.store).
Proof.
  split.
  - exact (proj1 (missing_fields_are_rejected_before_any_call (W := Shop.t))
                 Demo.env (Demo.add "123" EmptyString) (boot Demo.store) eq_refl
                 (or_introl eq_refl) (or_intror eq_refl)).
  - exact (proj2 (missing_fields_are_rejected_before_any_call (W := Shop.t))
                 Demo.env (Demo.get EmptyString) (boot Demo.store) eq_refl eq_refl eq_refl).
Defined.

Lemma get_returns_the_read_verbatim_witness :
  wishlistRoutes Demo.env (Demo.get "456") (boot Demo.store)
  = (Return (Res.mk 200 (success None (listed "456" [Demo.tee] 1))),
     after_axios (getCustomer "gid://shopify/Customer/456") (boot Demo.store)).
Proof.
  refine (proj1 (get_returns_the_read_verbatim Demo.env (Demo.get "456") "456" [Demo.tee]
                   (boot Demo.store) _ eq_refl eq_refl eq_refl _ eq_refl)).
  discriminate.
Defined.

Lemma read_failure_policy_witness :
  getCustomerMetafield "123" (boot (Demo.failing "Customer not found upstream"))
  = (Return [], after_axios (getCustomer "gid://shopify/Customer/123")
                            (boot (Demo.failing "Customer not found upstream")))
  /\ getCustomerMetafield "123" (boot (Demo.failing "timeout of 5000ms exceeded"))
     = (Throw "timeout of 5000ms exceeded",
        after_axios (getCustomer "gid://shopify/Customer/123")
                    (boot (Demo.failing "timeout of 5000ms exceeded"))).
Proof.
  split.
  - exact (proj1 (read_failure_policy "123"
                    (boot (Demo.failing "Customer not found upstream")) eq_refl) eq_refl).
  - exact (proj2 (read_failure_policy "123"
                    (boot (Demo.failing "timeout of 5000ms exceeded")) eq_refl) eq_refl).
Defined.

Lemma read_failure_is_a_500_witness :
  wishlistRoutes Demo.env (Demo.remove "123" "9")
                 (boot (Demo.failing "timeout of 5000ms exceeded"))
  = (Return (Res.mk 500 (failure "Failed to remove product from wishlist"
                                 "timeout of 5000ms exceeded")),
     after_axios (getCustomer "gid://shopify/Customer/123")
                 (boot (Demo.failing "timeout of 5000ms exceeded"))).
Proof.
  refine (proj2 (proj2 (read_failure_is_a_500 Demo.env (Demo.remove "123" "9") "123" "9"
                          (boot (Demo.failing "timeout of 5000ms exceeded"))
                          eq_refl _ _ eq_refl eq_refl))
                eq_refl eq_refl eq_refl); discriminate.
Defined.

Lemma lookup_degrades_the_whole_batch_witness :
  getProductDetails ["9"; "10"] (boot Demo.tee_and_null)
  = (Return [degraded "9"; degraded "10"],
     after_axios (getProducts ["gid://shopify/Product/9"; "gid://shopify/Product/10"])
                 (boot Demo.tee_and_null)).
Proof.
  refine (proj2 (lookup_degrades_the_whole_batch (W := Scripted.t)) "9" ["10"]
                (boot Demo.tee_and_null) _).
  right. eexists. split; reflexivity.
Defined.

Lemma lookup_strips_the_prefix_witness :
  getProductDetails ["9"; "10"] (boot Demo.two_products)
  = (Return [Details.mk "9" (Some "tee") (Some "Tee");
             Details.mk "10" (Some "mug") (Some "Mug")],
     after_axios (getProducts ["gid://shopify/Product/9"; "gid://shopify/Product/10"])
                 (boot Demo.two_products)).
Proof.
  exact (lookup_strips_the_prefix "9" ["10"]
           [("9", Some "tee", Some "Tee"); ("10", Some "mug", Some "Mug")]
           (boot Demo.two_products) eq_refl).
Defined.

Lemma rest_failed_read_writes_nothing_witness :
  updateCustomerMetafieldREST "123" [Demo.tee] (boot Demo.offline)
  = (Throw "fetch failed", after_fetch (GET_metafields "123") (boot Demo.offline)).
Proof.
  exact (proj1 (rest_failed_read_writes_nothing "123" [Demo.tee] (boot Demo.offline))
               "fetch failed" eq_refl).
Defined.

Lemma rest_updates_or_creates_witness :
  log (snd (updateCustomerMetafieldREST "gid://shopify/Customer/123" [Demo.tee]
              (boot Demo.rest_existing)))
  = [fetch_call (GET_metafields "123");
     fetch_call (PUT_metafield "123" 42 (wishlistMetafield [Demo.tee]))]
  /\ log (snd (updateCustomerMetafieldREST "123" [Demo.tee] (boot Demo.rest_refused)))
     = [fetch_call (GET_metafields "123");
        fetch_call (POST_metafield "123" (wishlistMetafield [Demo.tee]))].
Proof.
  split.
  - exact (proj1 (rest_updates_or_creates "gid://shopify/Customer/123" [Demo.tee]
                    (boot Demo.rest_existing) 200 "{...}"
                    (Some [Metafield.mk 3 "custom" "notes";
                           Metafield.mk 42 "custom" "wishlist_products"]) eq_refl)
                 _ (Metafield.mk 42 "custom" "wishlist_products") eq_refl eq_refl eq_refl).
  - exact (proj2 (rest_updates_or_creates "123" [Demo.tee] (boot Demo.rest_refused)
                    404 "Not Found" None eq_refl)
                 (or_introl eq_refl)).
Defined.

Lemma rest_outcome_is_the_write_outcome_witness :
  exists wr,
    is_write (fetch_call wr) = true
    /\ updateCustomerMetafieldREST "123" [Demo.tee] (boot Demo.rest_refused)
       = (write_outcome
            (fst (fetch wr (world (after_fetch (GET_metafields "123")
                                               (boot Demo.rest_refused))))),
          after_fetch wr (after_fetch (GET_metafields "123") (boot Demo.rest_refused))).
Proof.
  refine (rest_outcome_is_the_write_outcome "123" [Demo.tee] (boot Demo.rest_refused)
            404 "Not Found" (json None) eq_refl _).
  discriminate.
Defined.

Lemma write_decision_table_witness :
  updateCustomerMetafield "123" [Demo.tee] (boot Demo.store)
  = (Return tt,
     after_axios (metafieldsSet "gid://shopify/Customer/123" (wishlistMetafield [Demo.tee]))
                 (boot Demo.store)).
Proof.
  exact (proj1 (write_decision_table "123" [Demo.tee] (boot Demo.store)) eq_refl).
Defined.

Lemma set_wishlist_never_falls_back_witness :
  setWishlistMetafield "123" [Demo.tee] (boot Demo.flaky)
  = (Throw "GraphQL Error: Access denied",
     after_axios (metafieldsSet "gid://shopify/Customer/123" (wishlistMetafield [Demo.tee]))
                 (boot Demo.flaky)).
Proof.
  pose proof (set_wishlist_never_falls_back "123" [Demo.tee] (boot Demo.flaky))
    as [Hstate [_ [Herrors _]]].
  specialize (Herrors "Access denied" [] eq_refl).
  destruct (setWishlistMetafield "123" [Demo.tee] (boot Demo.flaky)) as [o st'].
  cbn [fst snd] in *. now subst.
Defined.

Lemma write_failure_is_a_500_witness :
  fst (wishlistRoutes Demo.env (Demo.add "123" "9") (boot Demo.down))
  = Return (Res.mk 500 (failure "Failed to add product to wishlist"
                                "REST API Error: 422 - owner is invalid")).
Proof.
  refine (f_equal fst
            (proj1 (write_failure_is_a_500 Demo.env (Demo.add "123" "9") "123" "9"
                      "REST API Error: 422 - owner is invalid" [] (boot Demo.down) _
                      eq_refl eq_refl eq_refl _ _ eq_refl)
                   eq_refl [degraded "9"] _ _ _ eq_refl eq_refl));
    [discriminate | discriminate | intros product []].
Defined.

Lemma write_then_read_witness :
  exists st1 st2,
    updateCustomerMetafield "123" [Demo.tee] (boot (with_primary Shop.user_errors Demo.store))
    = (Return tt, st1)
    /\ getCustomerMetafield "123" st1 = (Return [Demo.tee], st2)
    /\ world st2 = world st1.
Proof.
  refine (write_then_read "123" "123" [Demo.tee]
            (boot (with_primary Shop.user_errors Demo.store)) None _ eq_refl).
  split; reflexivity.
Defined.

Lemma demo_store_is_unique (c : string) : unique_ids (Shop.stored Demo.store c).
Proof.
  unfold unique_ids, Shop.stored, Demo.store. cbn [Shop.customers].
  destruct (decide ("123" = c)) as [<- | H1];
    [rewrite lookup_insert_eq; apply List.NoDup_nil | rewrite lookup_insert_ne by exact H1].
  destruct (decide ("456" = c)) as [<- | H2];
    [rewrite lookup_insert_eq | rewrite lookup_insert_ne by exact H2].
  - apply List.NoDup_cons; [intros [] | apply List.NoDup_nil].
  - destruct (decide ("789" = c)) as [<- | H3];
      [rewrite lookup_singleton_eq | rewrite lookup_singleton_ne by exact H3];
      apply List.NoDup_nil.
Defined.

Lemma requests_keep_ids_unique_witness :
  unique_ids (Shop.stored (world (snd (wishlistRoutes Demo.env (Demo.add "456" "11")
                                                      (boot Demo.store)))) "456").
Proof.
  exact (requests_keep_ids_unique Demo.env (Demo.add "456" "11") (boot Demo.store)
           demo_store_is_unique "456").
Defined.

Lemma only_add_and_remove_change_the_store_witness :
  world (snd (wishlistRoutes Demo.env (Demo.get "456") (boot Demo.store))) = Demo.store.
Proof.
  refine (only_add_and_remove_change_the_store Demo.env (Demo.get "456") (boot Demo.store)
            _ _); discriminate.
Defined.

Lemma requests_touch_one_customer_witness :
  Shop.stored (world (snd (wishlistRoutes Demo.env
                             (Demo.add "gid://shopify/Customer/123" "9")
                             (boot Demo.store)))) "456"
  = [Demo.tee].
Proof.
  refine (requests_touch_one_customer Demo.env (Demo.add "gid://shopify/Customer/123" "9")
            "gid://shopify/Customer/123" "123" "456" (boot Demo.store) eq_refl _ _);
    [split; reflexivity | discriminate].
Defined.

Lemma add_appends_at_the_end_witness :
  exists st1,
    wishlistRoutes Demo.env (Demo.add "456" "11") (boot Demo.store)
    = (Return (Res.mk 201 (success (Some "Product added to wishlist successfully")
                 (added "456"
                    (Product.mk (Some "11") None (Some "Product 11")
                                "2024-02-02T00:00:00.000Z" "shopify-store")
                    (length (Shop.stored (world st1) "456"))))), st1)
    /\ Shop.stored (world st1) "456"
       = [Demo.tee; Product.mk (Some "11") None (Some "Product 11")
                               "2024-02-02T00:00:00.000Z" "shopify-store"].
Proof.
  refine (add_appends_at_the_end Demo.env (Demo.add "456" "11") "456" "456" "11"
            (boot Demo.store) (Some (5%positive, WishlistText [Demo.tee]))
            eq_refl eq_refl eq_refl eq_refl _ _ _ eq_refl _);
    [discriminate | discriminate | split; reflexivity |].
  intros product [<- | []]. discriminate.
Defined.

Lemma remove_is_complete_witness :
  exists res1 st1 res2 st2,
    wishlistRoutes Demo.env (Demo.remove "456" "9") (boot Demo.store) = (Return res1, st1)
    /\ Res.status res1 = 200
    /\ Shop.stored (world st1) "456" = []
    /\ wishlistRoutes Demo.env (Demo.remove "456" "9") st1 = (Return res2, st2)
    /\ Res.status res2 = 404
    /\ world st2 = world st1.
Proof.
  refine (remove_is_complete Demo.env (Demo.remove "456" "9") "456" "456" "9"
            (boot Demo.store) (Some (5%positive, WishlistText [Demo.tee])) Demo.tee
            eq_refl eq_refl eq_refl eq_refl _ _ _ eq_refl _ eq_refl);
    [discriminate | discriminate | split; reflexivity | now left].
Defined.

Lemma channel_choice_is_invisible_witness :
  fst (wishlistRoutes Demo.env (Demo.add "123" "9")
         (boot (with_primary Shop.accepts Demo.store)))
  = fst (wishlistRoutes Demo.env (Demo.add "123" "9")
           (boot (with_primary Shop.unavailable Demo.store)))
  /\ forall c',
       Shop.stored (world (snd (wishlistRoutes Demo.env (Demo.add "123" "9")
                                  (boot (with_primary Shop.accepts Demo.store))))) c'
       = Shop.stored (world (snd (wishlistRoutes Demo.env (Demo.add "123" "9")
                                    (boot (with_primary Shop.unavailable Demo.store))))) c'.
Proof.
  refine (channel_choice_is_invisible Demo.env (Demo.add "123" "9") "123" "123" "9"
            Demo.store [] None Shop.accepts Shop.unavailable
            eq_refl (or_introl eq_refl) eq_refl eq_refl _ _ _ eq_refl);
    [discriminate | discriminate | split; reflexivity].
Defined.

Lemma customer_id_round_trip_witness :
  customerGid (customerGid "123") = customerGid "123"
  /\ JS.replace (customerGid "123") customerPrefix EmptyString = "123".
Proof.
  split.
  - exact (proj1 (customer_id_round_trip "123")).
  - exact (proj1 (proj2 (customer_id_round_trip "123")) eq_refl).
Defined.
